(** * The Vitest provider of the Webstir test host: result normalisation

    A shallow embedding of [src/provider.ts].  The external engine
    (Vitest), the module loader, the clock and [process.env] are the
    environment of the program: they appear as explicit inputs and as an
    explicit environment map threaded through [runVitest]. *)

From Stdlib Require Import ZArith Ascii String.
From stdpp Require Import base option list strings gmap.

Local Open Scope string_scope.
Local Open Scope list_scope.

(** ** JavaScript strings

    Strings are [string]; [String.prototype.trim] removes the ASCII white
    space characters (tab, line feed, vertical tab, form feed, carriage
    return, space) from both ends. *)

Definition isWhiteSpace (a : ascii) : bool :=
  let n := N_of_ascii a in
  ((9 <=? n)%N && (n <=? 13)%N) || (n =? 32)%N.

Fixpoint trimStart (s : string) : string :=
  match s with
  | String a r => if isWhiteSpace a then trimStart r else s
  | EmptyString => EmptyString
  end.

Fixpoint trimEnd (s : string) : string :=
  match s with
  | EmptyString => EmptyString
  | String a r =>
      match trimEnd r with
      | EmptyString => if isWhiteSpace a then EmptyString else String a EmptyString
      | r' => String a r'
      end
  end.

Definition trim (s : string) : string := trimEnd (trimStart s).

(** [s.length > 0], which is also the truthiness of a string. *)
Definition nonEmpty (s : string) : bool :=
  match s with
  | EmptyString => false
  | String _ _ => true
  end.

(** [s.trim().length > 0] *)
Definition nonBlank (s : string) : bool := nonEmpty (trim s).

(** [typeof v === 'string' && v.trim().length > 0] on an optional field. *)
Definition nonBlankField (v : option string) : bool :=
  match v with
  | Some s => nonBlank s
  | None => false
  end.

(** The line feed and the blank-line separator. *)
Definition LF : string := String "010" "".
Definition blankLine : string := LF +:+ LF.

(** [Array.prototype.join] *)
Definition join (sep : string) (parts : list string) : string :=
  String.concat sep parts.

(** [s.startsWith(p)] *)
Definition startsWith (p s : string) : bool := String.prefix p s.

(** [hay] has [needle] as a contiguous substring. *)
Definition contains (needle hay : string) : Prop :=
  exists pre post, hay = pre +:+ needle +:+ post.

(** A string that starts, respectively ends, with a character that is not
    white space. *)
Definition startsSolid (s : string) : Prop :=
  match s with
  | String a _ => isWhiteSpace a = false
  | EmptyString => False
  end.

Definition endsSolid (s : string) : Prop := nonEmpty s = true /\ trimEnd s = s.

(** ** The host's result types *)

(** Durations are whole numbers of milliseconds, modelled as [Z];
    fractions of a millisecond, [NaN] and the infinities are outside the
    model. *)
Module TestRunResult.
Record t := mk {
    name : string;
    file : string;
    passed : bool;
    message : option string;
    durationMs : Z;
  }.
End TestRunResult.

Module RunnerSummary.
Record t := mk {
    passed : nat;
    failed : nat;
    total : nat;
    durationMs : Z;
    results : list TestRunResult.t;
  }.
End RunnerSummary.

(** ** The engine's result tree

    Optional fields ([x?: T]) are [option T]; array entries the code
    guards with [if (!x)] are [option] too. *)

Module VitestStack.
Record t := mk {
    message : option string;
    stack : option string;
  }.
End VitestStack.

Module VitestTaskError.
Record t := mk {
    message : option string;
    stack : option string;
    stacks : option (list (option VitestStack.t));
  }.
End VitestTaskError.

Module TaskResult.
Record t := mk {
    state : option string;
    duration : option Z;
    errors : option (list (option VitestTaskError.t));
  }.
End TaskResult.

#[warnings="-register-all"] Inductive VitestTaskResult : Type :=
  Task (type : option string) (name : option string) (mode : option string)
       (tasks : option (list (option VitestTaskResult)))
       (result : option TaskResult.t).

Module ModuleResult.
Record info := mkInfo {
    state : option string;
    duration : option Z;
  }.
Record t := mk {
    filepath : option string;
    result : option info;
    tasks : option (list (option VitestTaskResult));
  }.
End ModuleResult.

(** A value of type [unknown] reported as an unhandled error, by the three
    shapes [formatUnhandledError] tells apart.  For a value that is neither
    an [Error] nor a string, [json] is the outcome of
    [JSON.stringify(error, null, 2)] ([None] when it throws) and [coerced]
    is [String(error)]. *)
Inductive Unknown : Type :=
  | UError (stack : option string) (message : string)
  | UString (s : string)
  | UOther (json : option string) (coerced : string).

(** [v === lit] for an optional string field. *)
Definition isLit (v : option string) (lit : string) : bool :=
  match v with
  | Some s => String.eqb s lit
  | None => false
  end.

(** [filePath || fallback] *)
Definition orElse (s fallback : string) : string :=
  if nonEmpty s then s else fallback.

(** ** Error Message Reconciler: [formatTaskErrors] *)

(** [array.indexOf(value)], [-1] when absent. *)
Fixpoint indexOf (value : string) (array : list string) : Z :=
  match array with
  | [] => (-1)%Z
  | x :: rest =>
      if String.eqb x value then 0%Z
      else let i := indexOf value rest in
           if (i <? 0)%Z then (-1)%Z else (i + 1)%Z
  end.

(** [array.filter((value, index) => p value index)], from index [i] on. *)
Fixpoint filterFrom {A : Type} (p : A -> nat -> bool) (i : nat) (l : list A) : list A :=
  match l with
  | [] => []
  | x :: rest =>
      if p x i then x :: filterFrom p (S i) rest else filterFrom p (S i) rest
  end.

(** [messages.push(value)] *)
Definition push {A : Type} (messages : list A) (value : A) : list A :=
  (messages ++ [value])%list.

(** The text of a field already known to be a string. *)
Definition text (v : option string) : string := default "" v.

(** The body of the inner loop over [error.stacks]. *)
Definition pushStack (messages : list string) (stack : option VitestStack.t) : list string :=
  match stack with
  | Some s =>
      if nonBlankField (VitestStack.message s)
      then push messages (trim (text (VitestStack.message s)))
      else if nonBlankField (VitestStack.stack s)
      then push messages (trim (text (VitestStack.stack s)))
      else messages
  | None => messages
  end.

(** The body of the loop over [errors]. *)
Definition pushError (messages : list string) (error : option VitestTaskError.t) : list string :=
  match error with
  | None => messages
  | Some e =>
      let messages :=
        if nonBlankField (VitestTaskError.message e)
        then push messages (trim (text (VitestTaskError.message e)))
        else messages in
      match VitestTaskError.stacks e with
      | Some stacks => fold_left pushStack stacks messages
      | None =>
          if nonBlankField (VitestTaskError.stack e)
          then push messages (trim (text (VitestTaskError.stack e)))
          else messages
      end
  end.

Definition uniqueMessages (messages : list string) : list string :=
  filterFrom
    (fun value index => nonEmpty value && (indexOf value messages =? Z.of_nat index)%Z)
    0 messages.

Definition formatTaskErrors (errors : option (list (option VitestTaskError.t))) : option string :=
  match errors with
  | None => None
  | Some [] => None
  | Some errors =>
      let messages := fold_left pushError errors [] in
      let unique := uniqueMessages messages in
      match unique with
      | [] => None
      | _ => Some (join blankLine unique)
      end
  end.

(** ** Result Tree Flattener: [collectTaskResults] *)

(** [task.tasks && task.tasks.length > 0] *)
Definition hasChildren (tasks : option (list (option VitestTaskResult))) : bool :=
  match tasks with
  | Some (_ :: _) => true
  | _ => false
  end.

(** [task.result?.state ?? (task.mode === 'skip' || task.mode === 'todo' ? task.mode : undefined)] *)
Definition taskState (mode : option string) (result : option TaskResult.t) : option string :=
  match result ≫= TaskResult.state with
  | Some s => Some s
  | None => if isLit mode "skip" || isLit mode "todo" then mode else None
  end.

(** The outcome pushed for a task typed ["test"]. *)
Definition testResult (filePath : string) (name mode : option string)
    (result : option TaskResult.t) : TestRunResult.t :=
  let state := taskState mode result in
  let durationMs :=
    match result ≫= TaskResult.duration with
    | Some d => Z.max 0 d
    | None => 0%Z
    end in
  let name :=
    match name with
    | Some n => if nonEmpty n && nonBlank n then n else "[unnamed]"
    | None => "[unnamed]"
    end in
  let normalizedFile := orElse filePath "[vitest]" in
  if isLit state "skip" || isLit state "todo" then
    TestRunResult.mk name normalizedFile true None durationMs
  else
    let passed := isLit state "pass" in
    let errorMessage := formatTaskErrors (result ≫= TaskResult.errors) in
    TestRunResult.mk name normalizedFile passed
      (if passed then None
       else Some (default "Vitest reported a failure without additional details." errorMessage))
      durationMs.

(** The loop [for (const task of tasks) { if (!task) continue; body }] over
    an accumulator. *)
Definition forEachTask {A : Type} (body : A -> VitestTaskResult -> A)
    (tasks : list (option VitestTaskResult)) (accumulator : A) : A :=
  fold_left
    (fun acc task =>
       match task with
       | None => acc
       | Some t => body acc t
       end)
    tasks accumulator.

(** One iteration of the loop of [collectTaskResults] on a non-null task;
    [collect] is the recursive call on [task.tasks]. *)
Fixpoint collectTask (filePath : string) (task : VitestTaskResult)
    (accumulator : list TestRunResult.t) {struct task} : list TestRunResult.t :=
  match task with
  | Task type name mode tasks result =>
      let collect := forEachTask (fun acc t => collectTask filePath t acc) in
      if isLit type "suite" then
        match tasks with
        | Some ts => collect ts accumulator
        | None => accumulator
        end
      else if hasChildren tasks && negb (isLit type "test") then
        match tasks with
        | Some ts => collect ts accumulator
        | None => accumulator
        end
      else if negb (isLit type "test") then accumulator
      else push accumulator (testResult filePath name mode result)
  end.

Definition collectTaskResults (tasks : list (option VitestTaskResult)) (filePath : string)
    (accumulator : list TestRunResult.t) : list TestRunResult.t :=
  forEachTask (fun acc t => collectTask filePath t acc) tasks accumulator.

(** ** Summary Builder *)

Definition formatUnhandledError (error : Unknown) : string :=
  match error with
  | UError (Some stack) message =>
      if nonEmpty stack && nonBlank stack then stack
      else orElse message "Unhandled error"
  | UError None message => orElse message "Unhandled error"
  | UString s => s
  | UOther (Some json) _ => json
  | UOther None coerced => coerced
  end.

Definition appendUnhandledErrors (errors : option (list Unknown)) (requestedFiles : list string)
    (results : list TestRunResult.t) : list TestRunResult.t :=
  match errors with
  | None => results
  | Some [] => results
  | Some errors =>
      let targetFile := default "[vitest]" (requestedFiles !! 0%nat) in
      fold_left
        (fun results error =>
           push results
             (TestRunResult.mk "[unhandled]" targetFile false
                (Some (formatUnhandledError error)) 0%Z))
        errors results
  end.

Definition createEmptySummary : RunnerSummary.t :=
  RunnerSummary.mk 0 0 0 0%Z [].

Definition createFailureSummary (files : list string) (message : string) : RunnerSummary.t :=
  let normalizedMessage := trim message in
  let results :=
    map (fun file => TestRunResult.mk "[vitest provider]" file false (Some normalizedMessage) 0%Z)
      files in
  let results :=
    if (length results =? 0)%nat
    then push results
           (TestRunResult.mk "[vitest provider]" "[vitest]" false (Some normalizedMessage) 0%Z)
    else results in
  RunnerSummary.mk 0 (length results) (length results) 0%Z results.

Definition formatFailureMessage (reason stdout stderr : string) : string :=
  let sections := [trim reason] in
  let trimmedStdout := trim stdout in
  let trimmedStderr := trim stderr in
  let sections :=
    if nonEmpty trimmedStdout
    then push sections ("[stdout]" +:+ LF +:+ trimmedStdout)
    else sections in
  let sections :=
    if nonEmpty trimmedStderr
    then push sections ("[stderr]" +:+ LF +:+ trimmedStderr)
    else sections in
  join blankLine sections.

(** ** The environment of the provider *)

(** [process.env] *)
Abbreviation Env := (gmap string string).

Definition WEBSTIR_TEST_PROVIDER : string := "WEBSTIR_TEST_PROVIDER".
Definition WEBSTIR_TESTING_PROVIDER : string := "WEBSTIR_TESTING_PROVIDER".
Definition WEBSTIR_TESTING_PROVIDER_SPEC : string := "WEBSTIR_TESTING_PROVIDER_SPEC".

(** A thrown value: an [Error] with its [message], or anything else with
    its [String(error)] coercion. *)
Inductive Thrown : Type :=
  | ThrownError (message : string)
  | ThrownValue (coerced : string).

(** What locating and importing the engine yields: [resolveVitestPackage]
    returns null; the dynamic [import] throws; the module has no function
    [startVitest]; or [startVitest] is found. *)
Inductive Load : Type :=
  | NotInstalled
  | ImportThrows (error : Thrown)
  | NoStartVitest
  | Loaded.

(** What awaiting [startVitest(...)] and reading [ctx.state] yields. *)
Inductive Outcome : Type :=
  | Throws (error : Thrown)
  | Returns (getFiles : list ModuleResult.t) (getUnhandledErrors : option (list Unknown)).

(** One engine call: the text written to the two capture sinks, the
    wall-clock time [Date.now() - startTime] at its end, the environment
    it leaves behind, and its outcome. *)
Record EngineRun := mkRun {
  stdout : string;
  stderr : string;
  elapsed : Z;
  envAfter : Env;
  outcome : Outcome;
}.

Record Engine := mkEngine {
  load : Load;
  startVitest : Env -> list string -> EngineRun;
}.

Section Provider.

(** [path.resolve], [path.relative] and [process.cwd()] of the platform. *)
Variable resolve : string -> string.
Variable relative : string -> string -> string.
Variable cwd : string.

Definition normalizeCliFilter (file : string) : string :=
  let relative := relative cwd file in
  if nonEmpty relative && negb (startsWith ".." relative) then relative else file.

(** [moduleResult.filepath ? path.resolve(moduleResult.filepath) : null] *)
Definition moduleFileOf (moduleResult : ModuleResult.t) : option string :=
  match ModuleResult.filepath moduleResult with
  | Some fp => if nonEmpty fp then Some (resolve fp) else None
  | None => None
  end.

(** Truthiness of a [string | null]. *)
Definition truthy (v : option string) : bool :=
  match v with
  | Some s => nonEmpty s
  | None => false
  end.

(** [requestedSet.size > 0 && moduleFile && !requestedSet.has(moduleFile)] *)
Definition moduleSkipped (requestedSet : gset string) (moduleFile : option string) : bool :=
  (0 <? size requestedSet)%nat && truthy moduleFile
  && negb (bool_decide (text moduleFile ∈ requestedSet)).

(** One iteration of the loop over [modules]; the state is [results] and
    [moduleDuration]. *)
Definition moduleStep (requestedSet : gset string) (requestedFiles : list string)
    (st : list TestRunResult.t * Z) (moduleResult : ModuleResult.t) : list TestRunResult.t * Z :=
  let '(results, moduleDuration) := st in
  let moduleFile := moduleFileOf moduleResult in
  if moduleSkipped requestedSet moduleFile then (results, moduleDuration)
  else
    let moduleDuration :=
      match ModuleResult.result moduleResult ≫= ModuleResult.duration with
      | Some d => if truthy moduleFile then (moduleDuration + Z.max 0 d)%Z else moduleDuration
      | None => moduleDuration
      end in
    let results :=
      match ModuleResult.tasks moduleResult with
      | Some tasks =>
          let targetFile :=
            match moduleFile with
            | Some f => f
            | None => default "[vitest]" (requestedFiles !! 0%nat)
            end in
          collectTaskResults tasks targetFile results
      | None => results
      end in
    (results, moduleDuration).

Definition buildSummaryFromVitest (modules : option (list ModuleResult.t))
    (unhandledErrors : option (list Unknown)) (requestedFiles : list string) : RunnerSummary.t :=
  let requestedSet : gset string := list_to_set (map resolve requestedFiles) in
  let '(results, moduleDuration) :=
    fold_left (moduleStep requestedSet requestedFiles) (default [] modules) ([], 0%Z) in
  let results := appendUnhandledErrors unhandledErrors requestedFiles results in
  let passed := length (filter (fun r => TestRunResult.passed r = true) results) in
  let failed := (length results - passed)%nat in
  let durationFromTests :=
    fold_left (fun total r => (total + Z.max 0 (TestRunResult.durationMs r))%Z) results 0%Z in
  let durationMs := if (0 <? durationFromTests)%Z then durationFromTests else moduleDuration in
  RunnerSummary.mk passed failed (length results) durationMs results.

(** The [finally] block, for one marker. *)
Definition restoreEnv (key : string) (original : option string) (env : Env) : Env :=
  match original with
  | Some v => <[key := v]> env
  | None => delete key env
  end.

(** The markers as [startVitest] sees them. *)
Definition setMarkers (env : Env) : Env :=
  let originalSpecEnv := env !! WEBSTIR_TESTING_PROVIDER_SPEC in
  let env := <[WEBSTIR_TEST_PROVIDER := "vitest"]> env in
  let env := <[WEBSTIR_TESTING_PROVIDER := "@webstir-io/vitest-testing"]> env in
  <[WEBSTIR_TESTING_PROVIDER_SPEC := default "" originalSpecEnv]> env.

Definition thrownReason (error : Thrown) : string :=
  match error with
  | ThrownError message => message
  | ThrownValue coerced => coerced
  end.

Definition executionReason (error : Thrown) : string :=
  match error with
  | ThrownError message => "Vitest execution failed: " +:+ message
  | ThrownValue _ => "Vitest execution failed."
  end.

Definition notInstalledMessage : string :=
  "[webstir-io/vitest-testing] Vitest runtime not installed. Install " +:+ String "034"
    ("vitest" +:+ String "034" " in the active workspace or ensure it can be resolved.").

Definition loadFailurePrefix : string :=
  "[webstir-io/vitest-testing] Unable to load the Vitest runtime: ".

Definition noExportMessage : string :=
  "[webstir-io/vitest-testing] Unable to locate the Vitest startVitest export.".

(** [runVitest], returning the summary and the environment it leaves. *)
Definition runVitest (engine : Engine) (files : list string) (env : Env)
    : RunnerSummary.t * Env :=
  match load engine with
  | NotInstalled => (createFailureSummary files notInstalledMessage, env)
  | ImportThrows error =>
      let reason := thrownReason error in
      (createFailureSummary files (loadFailurePrefix +:+ reason), env)
  | NoStartVitest => (createFailureSummary files noExportMessage, env)
  | Loaded =>
      let normalizedFiles := map resolve files in
      let filters := map normalizeCliFilter normalizedFiles in
      let originalProviderEnv := env !! WEBSTIR_TEST_PROVIDER in
      let originalTestingProviderEnv := env !! WEBSTIR_TESTING_PROVIDER in
      let originalSpecEnv := env !! WEBSTIR_TESTING_PROVIDER_SPEC in
      let run := startVitest engine (setMarkers env) filters in
      let result :=
        match outcome run with
        | Returns getFiles getUnhandledErrors =>
            let summary :=
              buildSummaryFromVitest (Some getFiles)
                (Some (default [] getUnhandledErrors)) normalizedFiles in
            if (0 <? RunnerSummary.durationMs summary)%Z then summary
            else RunnerSummary.mk (RunnerSummary.passed summary) (RunnerSummary.failed summary)
                   (RunnerSummary.total summary) (elapsed run) (RunnerSummary.results summary)
        | Throws error =>
            let reason := executionReason error in
            let message := formatFailureMessage reason (stdout run) (stderr run) in
            createFailureSummary files message
        end in
      let env := envAfter run in
      let env := restoreEnv WEBSTIR_TEST_PROVIDER originalProviderEnv env in
      let env := restoreEnv WEBSTIR_TESTING_PROVIDER originalTestingProviderEnv env in
      let env := restoreEnv WEBSTIR_TESTING_PROVIDER_SPEC originalSpecEnv env in
      (result, env)
  end.

(** [vitestProvider.runTests] *)
Definition runTests (engine : Engine) (files : list string) (env : Env)
    : RunnerSummary.t * Env :=
  if (length files =? 0)%nat then (createEmptySummary, env)
  else runVitest engine files env.

End Provider.

(** ** The reconciler as the specification words it

    The candidate strings of an error, their stable deduplication and the
    joined message, to be compared with [formatTaskErrors]. *)

(** A field that is a string and not blank, trimmed. *)
Definition trimmedNonBlank (v : option string) : list string :=
  match v with
  | Some s => if nonBlank s then [trim s] else []
  | None => []
  end.

(** A stack entry gives its message, or else its stack text. *)
Definition stackCandidates (stack : VitestStack.t) : list string :=
  match trimmedNonBlank (VitestStack.message stack) with
  | [] => trimmedNonBlank (VitestStack.stack stack)
  | c => c
  end.

(** An error gives its message; then the candidates of its stacks when it
    has a stacks sequence, its own stack text otherwise. *)
Definition errorCandidates (e : VitestTaskError.t) : list string :=
  (trimmedNonBlank (VitestTaskError.message e) ++
   match VitestTaskError.stacks e with
   | Some stacks => flat_map stackCandidates (omap id stacks)
   | None => trimmedNonBlank (VitestTaskError.stack e)
   end)%list.

Definition candidates (errors : option (list (option VitestTaskError.t))) : list string :=
  flat_map errorCandidates (omap id (default [] errors)).

(** Keep the first occurrence of every string, drop the later ones. *)
Fixpoint stableDedup (l : list string) : list string :=
  match l with
  | [] => []
  | x :: rest => x :: filter (fun y => y <> x) (stableDedup rest)
  end.

Definition reconcile (errors : option (list (option VitestTaskError.t))) : option string :=
  match stableDedup (candidates errors) with
  | [] => None
  | unique => Some (join blankLine unique)
  end.

(** ** The task tree as the specification words it *)

(** The non-null children of a task. *)
Definition childrenOf (tasks : option (list (option VitestTaskResult)))
    : list (option VitestTaskResult) :=
  default [] tasks.

Definition typeOf (task : VitestTaskResult) : option string :=
  match task with
  | Task type _ _ _ _ => type
  end.

(** The tasks typed ["test"] that a depth-first walk meets when it enters
    the children of every task except those of a ["test"]. *)
Fixpoint reachedTests (task : VitestTaskResult) : list VitestTaskResult :=
  match task with
  | Task type name mode tasks result =>
      if isLit type "test" then [task]
      else
        match tasks with
        | Some ts =>
            flat_map (fun t => match t with Some t => reachedTests t | None => [] end) ts
        | None => []
        end
  end.

Definition reachedTestsOf (tasks : list (option VitestTaskResult)) : list VitestTaskResult :=
  flat_map (fun t => match t with Some t => reachedTests t | None => [] end) tasks.

(** Every task typed ["test"] of the tree, in depth-first order. *)
Fixpoint allTests (task : VitestTaskResult) : list VitestTaskResult :=
  match task with
  | Task type name mode tasks result =>
      (if isLit type "test" then [task] else []) ++
      match tasks with
      | Some ts =>
          flat_map (fun t => match t with Some t => allTests t | None => [] end) ts
      | None => []
      end
  end.

Definition allTestsOf (tasks : list (option VitestTaskResult)) : list VitestTaskResult :=
  flat_map (fun t => match t with Some t => allTests t | None => [] end) tasks.

(** The outcome of a task typed ["test"]. *)
Definition outcomeOf (filePath : string) (task : VitestTaskResult) : TestRunResult.t :=
  match task with
  | Task _ name mode _ result => testResult filePath name mode result
  end.

(** The state of a test is [skip] or [todo]. *)
Definition skipOrTodo (state : option string) : bool :=
  isLit state "skip" || isLit state "todo".

(** The state of a test as the specification reads it: the state field
    of its result, or its mode marker when the result has no state. *)
Definition statedState (mode : option string) (result : option TaskResult.t) : option string :=
  match result with
  | Some r =>
      match TaskResult.state r with
      | Some s => Some s
      | None => mode
      end
  | None => mode
  end.

Definition statedStateOf (task : VitestTaskResult) : option string :=
  match task with
  | Task _ _ mode _ result => statedState mode result
  end.

(** ** The module loop and the summary as the specification words them *)

Section SummarySpec.

Variable resolve : string -> string.

(** The module has a file path. *)
Definition filePresent (m : ModuleResult.t) : bool :=
  truthy (ModuleResult.filepath m).

(** The module is dropped: files were requested, the module has a file
    path, and the path is none of the requested ones. *)
Definition droppedModule (requestedFiles : list string) (m : ModuleResult.t) : bool :=
  negb (length requestedFiles =? 0)%nat && filePresent m
  && negb (bool_decide (resolve (text (ModuleResult.filepath m)) ∈ map resolve requestedFiles)).

Definition keptModules (requestedFiles : list string) (modules : list ModuleResult.t)
    : list ModuleResult.t :=
  filter (fun m => droppedModule requestedFiles m = false) modules.

(** The non-negative duration a module reports of itself. *)
Definition selfDuration (m : ModuleResult.t) : Z :=
  match ModuleResult.result m ≫= ModuleResult.duration with
  | Some d => Z.max 0 d
  | None => 0%Z
  end.

Definition sumZ (l : list Z) : Z := foldr Z.add 0%Z l.

(** The fallback pool if every kept module paid into it. *)
Definition poolOfAllKept (requestedFiles : list string) (modules : list ModuleResult.t) : Z :=
  sumZ (map selfDuration (keptModules requestedFiles modules)).

(** The fallback pool of the kept modules that have a file path. *)
Definition durationPool (requestedFiles : list string) (modules : list ModuleResult.t) : Z :=
  sumZ (map selfDuration
          (filter (fun m => filePresent m = true) (keptModules requestedFiles modules))).

(** The file recorded for the tests of a module: its own, else the first
    requested file, else the placeholder. *)
Definition targetFileOf (requestedFiles : list string) (m : ModuleResult.t) : string :=
  match moduleFileOf resolve m with
  | Some f => f
  | None => default "[vitest]" (requestedFiles !! 0%nat)
  end.

Definition moduleOutcomes (requestedFiles : list string) (m : ModuleResult.t)
    : list TestRunResult.t :=
  match ModuleResult.tasks m with
  | Some tasks => map (outcomeOf (targetFileOf requestedFiles m)) (reachedTestsOf tasks)
  | None => []
  end.

(** The outcomes of the kept modules, in the engine's order. *)
Definition flattened (requestedFiles : list string) (modules : list ModuleResult.t)
    : list TestRunResult.t :=
  flat_map (moduleOutcomes requestedFiles) (keptModules requestedFiles modules).

End SummarySpec.

(** The synthetic result of one unhandled error. *)
Definition unhandledResult (requestedFiles : list string) (error : Unknown) : TestRunResult.t :=
  TestRunResult.mk "[unhandled]" (default "[vitest]" (requestedFiles !! 0%nat)) false
    (Some (formatUnhandledError error)) 0%Z.

(** The sum of the non-negative durations of the results. *)
Definition totalDuration (results : list TestRunResult.t) : Z :=
  sumZ (map (fun r => Z.max 0 (TestRunResult.durationMs r)) results).

(** The duration rollup: the tests' sum when positive, else the fallback
    when positive, else the elapsed wall-clock time. *)
Definition rollup (fromTests fallback wallClock : Z) : Z :=
  if (0 <? fromTests)%Z then fromTests
  else if (0 <? fallback)%Z then fallback
  else wallClock.

Definition countPassed (results : list TestRunResult.t) : nat :=
  length (filter (fun r => TestRunResult.passed r = true) results).

Definition countFailed (results : list TestRunResult.t) : nat :=
  length (filter (fun r => TestRunResult.passed r = false) results).

(** ** Engine failures and the engine call, as the specification words them *)

(** The synthetic result of a failed invocation for one requested file. *)
Definition failureResult (message file : string) : TestRunResult.t :=
  TestRunResult.mk "[vitest provider]" file false (Some message) 0%Z.

(** The call [runVitest] makes once the engine is loaded. *)
Definition engineRun (resolve : string -> string) (relative : string -> string -> string)
    (cwd : string) (engine : Engine) (files : list string) (env : Env) : EngineRun :=
  startVitest engine (setMarkers env)
    (map (normalizeCliFilter relative cwd) (map resolve files)).

(** A failure of the engine: its reason and the output captured so far. *)
Record Failure := mkFailure {
  reason : string;
  capturedStdout : string;
  capturedStderr : string;
}.

(** The engine is unavailable, fails to load, lacks [startVitest], or
    throws during the call [run]; [None] when the call returns.  The
    reason is written out here from the inputs alone: the sentence that
    names the failure, followed for a failed import by the message of the
    thrown [Error] or the text of any other thrown value, and for a
    thrown call by the message of the thrown [Error]; a call that throws
    anything else has the bare sentence for its reason. *)
Definition engineFailure (engine : Engine) (run : EngineRun) : option Failure :=
  match load engine with
  | NotInstalled => Some (mkFailure "Vitest runtime not installed." "" "")
  | ImportThrows (ThrownError message) =>
      Some (mkFailure ("Unable to load the Vitest runtime: " +:+ message) "" "")
  | ImportThrows (ThrownValue coerced) =>
      Some (mkFailure ("Unable to load the Vitest runtime: " +:+ coerced) "" "")
  | NoStartVitest =>
      Some (mkFailure "Unable to locate the Vitest startVitest export." "" "")
  | Loaded =>
      match outcome run with
      | Throws (ThrownError message) =>
          Some (mkFailure ("Vitest execution failed: " +:+ message) (stdout run) (stderr run))
      | Throws (ThrownValue _) =>
          Some (mkFailure "Vitest execution failed." (stdout run) (stderr run))
      | Returns _ _ => None
      end
  end.

(** The three markers. *)
Definition markers : list string :=
  [WEBSTIR_TEST_PROVIDER; WEBSTIR_TESTING_PROVIDER; WEBSTIR_TESTING_PROVIDER_SPEC].

(** ** A sample platform and sample engines *)

(** Absolute paths are kept, relative ones are placed under [/w]. *)
Definition sampleResolve (p : string) : string :=
  if startsWith "/" p then p else "/w/" +:+ p.

(** Paths under [/w/] lose that prefix; others are reported as escaping. *)
Definition sampleRelative (from to : string) : string :=
  if startsWith "/w/" to then String.substring 3 (String.length to - 3) to
  else "../" +:+ to.

Definition sampleCwd : string := "/w".

(** An engine that is not installed. *)
Definition missingEngine : Engine :=
  mkEngine NotInstalled (fun env _ => mkRun "" "" 0%Z env (Returns [] None)).

(** An engine whose entry module fails to import. *)
Definition brokenEngine : Engine :=
  mkEngine (ImportThrows (ThrownError "Cannot find module vite "))
    (fun env _ => mkRun "" "" 0%Z env (Returns [] None)).

(** An engine whose call throws a value that is not an [Error]. *)
Definition rejectingEngine : Engine :=
  mkEngine Loaded
    (fun env _ => mkRun "" " worker exited " 30%Z env (Throws (ThrownValue "1"))).

(** An engine whose call throws after 200 ms, having written to both sinks. *)
Definition throwingEngine : Engine :=
  mkEngine Loaded
    (fun env _ => mkRun " collected 1 file " "" 200%Z env (Throws (ThrownError "boom "))).

(** An engine that returns the given modules and unhandled errors after
    200 ms and leaves the environment as it found it. *)
Definition returningEngine (modules : list ModuleResult.t) (unhandled : list Unknown) : Engine :=
  mkEngine Loaded
    (fun env _ => mkRun "" "" 200%Z env (Returns modules (Some unhandled))).

Definition passingTest (name : string) (duration : Z) : option VitestTaskResult :=
  Some (Task (Some "test") (Some name) None None
          (Some (TaskResult.mk (Some "pass") (Some duration) None))).

(** A module of two passing tests of duration 0 that reports 120 ms. *)
Definition sampleModule : ModuleResult.t :=
  ModuleResult.mk (Some "/w/a.test.ts") (Some (ModuleResult.mkInfo (Some "pass") (Some 120%Z)))
    (Some [passingTest "one" 0; passingTest "two" 0]).

(** A module without a file path that reports 120 ms and has no tasks. *)
Definition anonymousModule : ModuleResult.t :=
  ModuleResult.mk None (Some (ModuleResult.mkInfo (Some "pass") (Some 120%Z))) (Some []).

(** Three tests that did not run: one with state ["skip"], one with state
    ["todo"] and a ["skip"] mode, one with mode ["todo"] and no state. *)
Definition idleTests : list (option VitestTaskResult) :=
  [Some (Task (Some "test") (Some "a") None None
           (Some (TaskResult.mk (Some "skip") None None)));
   Some (Task (Some "test") (Some "b") (Some "skip") None
           (Some (TaskResult.mk (Some "todo") (Some 0%Z) None)));
   Some (Task (Some "test") (Some "c") (Some "todo") None None)].

(** A module of another file, with one test of 7 ms, that reports 50 ms. *)
Definition foreignModule : ModuleResult.t :=
  ModuleResult.mk (Some "/w/b.test.ts") (Some (ModuleResult.mkInfo (Some "pass") (Some 50%Z)))
    (Some [passingTest "three" 7]).

(** A task typed ["test"] that has a ["test"] among its children. *)
Definition testUnderTest : list (option VitestTaskResult) :=
  [Some (Task (Some "test") (Some "outer") None
           (Some [Some (Task (Some "test") (Some "inner") None None
                          (Some (TaskResult.mk (Some "pass") (Some 5%Z) None)))])
           (Some (TaskResult.mk (Some "pass") (Some 1%Z) None)))].

(** ** The console

    What [runVitest] and [runTests] write with [console.warn] and
    [console.info], in order; [Info n] is the line
    ["Vitest executed suite with n result(s)."]. *)

Inductive LogEntry : Type :=
  | Warn (text : string)
  | Info (total : nat).

Definition runVitestConsole (resolve : string -> string)
    (relative : string -> string -> string) (cwd : string)
    (engine : Engine) (files : list string) (env : Env) : list LogEntry :=
  match load engine with
  | NotInstalled => [Warn notInstalledMessage]
  | ImportThrows error => [Warn (loadFailurePrefix +:+ thrownReason error)]
  | NoStartVitest => [Warn noExportMessage]
  | Loaded =>
      let run :=
        startVitest engine (setMarkers env)
          (map (normalizeCliFilter relative cwd) (map resolve files)) in
      match outcome run with
      | Returns _ _ => []
      | Throws error =>
          let message :=
            formatFailureMessage (executionReason error) (stdout run) (stderr run) in
          [Warn ("[webstir-io/vitest-testing] " +:+ message)]
      end
  end.

(** [result.name !== '[vitest provider]'] *)
Definition notProviderResult (r : TestRunResult.t) : bool :=
  negb (String.eqb (TestRunResult.name r) "[vitest provider]").

Definition runTestsConsole (resolve : string -> string)
    (relative : string -> string -> string) (cwd : string)
    (engine : Engine) (files : list string) (env : Env) : list LogEntry :=
  if (length files =? 0)%nat then []
  else
    let summary := fst (runVitest resolve relative cwd engine files env) in
    runVitestConsole resolve relative cwd engine files env
    ++ (if (0 <? RunnerSummary.total summary)%nat
           && existsb notProviderResult (RunnerSummary.results summary)
        then [Info (RunnerSummary.total summary)]
        else []).

(** A string without white space at either end. *)
Definition solid (s : string) : Prop := startsSolid s /\ endsSolid s.

(** A task that is not typed ["test"], with the given children. *)
Definition container (type name mode : option string)
    (children : list (option VitestTaskResult)) (result : option TaskResult.t)
    : option VitestTaskResult :=
  Some (Task type name mode (Some children) result).

(** A suite of one failing test with a padded error message. *)
Definition failingSuite : list (option VitestTaskResult) :=
  [container (Some "suite") (Some "outer") None
     [Some (Task (Some "test") (Some "adds") None None
              (Some (TaskResult.mk (Some "fail") (Some (-3)%Z)
                       (Some [Some (VitestTaskError.mk (Some " expected 1 to be 2 ") None
                                      None)]))))]
     None].

(** * Properties *)

(** ** Strings and [trim] *)

Section Strings.

Implicit Types s t : string.

Lemma append_nil s : "" +:+ s = s.
Proof. reflexivity. Qed.

Lemma append_cons a s t : String a s +:+ t = String a (s +:+ t).
Proof. reflexivity. Qed.

Lemma append_empty_r s : s +:+ "" = s.
Proof. induction s as [|a s IH]; [done|]. by rewrite append_cons, IH. Qed.

Lemma append_assoc s t u : (s +:+ t) +:+ u = s +:+ t +:+ u.
Proof. induction s as [|a s IH]; [done|]. by rewrite !append_cons, IH. Qed.

Lemma nonEmpty_false s : nonEmpty s = false -> s = "".
Proof. by destruct s. Qed.

Lemma nonEmpty_append_r s t : nonEmpty t = true -> nonEmpty (s +:+ t) = true.
Proof. destruct s; [by rewrite append_nil | done]. Qed.

Lemma trimStart_solid s : startsSolid s -> trimStart s = s.
Proof. destruct s as [|a s]; simpl; [done | by intros ->]. Qed.

Lemma startsSolid_append s t : startsSolid s -> startsSolid (s +:+ t).
Proof. by destruct s. Qed.

Lemma trimEnd_cons a s :
  trimEnd (String a s) =
    if nonEmpty (trimEnd s) then String a (trimEnd s)
    else if isWhiteSpace a then "" else String a "".
Proof. simpl. by destruct (trimEnd s). Qed.

Lemma trimEnd_append s t :
  trimEnd (s +:+ t) = if nonEmpty (trimEnd t) then s +:+ trimEnd t else trimEnd s.
Proof.
  induction s as [|a s IH].
  - rewrite append_nil. by destruct (trimEnd t).
  - rewrite append_cons, !trimEnd_cons, IH.
    destruct (nonEmpty (trimEnd t)) eqn:Ht; [|done].
    by rewrite nonEmpty_append_r.
Qed.

Lemma endsSolid_append s t : endsSolid t -> endsSolid (s +:+ t).
Proof.
  intros [Hne Ht]. split; [by apply nonEmpty_append_r|].
  by rewrite trimEnd_append, Ht, Hne.
Qed.

Lemma trimEnd_idem s : trimEnd (trimEnd s) = trimEnd s.
Proof.
  induction s as [|a s IH]; [done|].
  rewrite trimEnd_cons.
  destruct (nonEmpty (trimEnd s)) eqn:Hs.
  - by rewrite trimEnd_cons, IH, Hs.
  - destruct (isWhiteSpace a) eqn:Ha; [done|]. simpl. by rewrite Ha.
Qed.

Lemma startsSolid_trimEnd s : startsSolid s -> startsSolid (trimEnd s).
Proof.
  destruct s as [|a s]; [done|]. intros Ha. rewrite trimEnd_cons.
  destruct (nonEmpty (trimEnd s)); [done|]. simpl in Ha. by rewrite Ha.
Qed.

Lemma trimStart_cases s : trimStart s = "" \/ startsSolid (trimStart s).
Proof.
  induction s as [|a s IH]; simpl; [by left|].
  destruct (isWhiteSpace a) eqn:Ha; [done|]. by right.
Qed.

(** A non-blank string trims to a string with solid ends. *)
Lemma trim_solid s :
  nonBlank s = true -> startsSolid (trim s) /\ endsSolid (trim s).
Proof.
  unfold nonBlank, trim. intros Hne.
  destruct (trimStart_cases s) as [E|Hs].
  - by rewrite E in Hne.
  - split; [by apply startsSolid_trimEnd|]. split; [done | apply trimEnd_idem].
Qed.

Lemma trim_fixed s : startsSolid s -> endsSolid s -> trim s = s.
Proof. intros Hs [_ He]. unfold trim. by rewrite trimStart_solid. Qed.

Lemma trim_idem s : trim (trim s) = trim s.
Proof.
  destruct (nonBlank s) eqn:Hs.
  - apply trim_solid in Hs as [? ?]. by apply trim_fixed.
  - apply nonEmpty_false in Hs. by rewrite Hs.
Qed.

(** What [trimEnd] keeps still has the trimmed text at its end. *)
Lemma trimEnd_trim s : exists ws, trimEnd s = ws +:+ trim s.
Proof.
  unfold trim. induction s as [|a s [ws IH]]; [by exists ""|].
  simpl trimStart. destruct (isWhiteSpace a) eqn:Ha.
  - rewrite trimEnd_cons, Ha.
    destruct (nonEmpty (trimEnd s)) eqn:Hs.
    + exists (String a ws). by rewrite append_cons, <- IH.
    + exists "". apply nonEmpty_false in Hs. rewrite Hs in IH.
      destruct ws; [exact IH | done].
  - by exists "".
Qed.

Lemma contains_refl s : contains s s.
Proof. exists "", "". change (s = s +:+ ""). by rewrite append_empty_r. Qed.

Lemma contains_empty s : contains "" s.
Proof. by exists "", s. Qed.

Lemma contains_append_l s t u : contains s u -> contains s (t +:+ u).
Proof.
  intros (pre & post & ->). exists (t +:+ pre), post. by rewrite append_assoc.
Qed.

Lemma contains_append_r s t u : contains s t -> contains s (t +:+ u).
Proof.
  intros (pre & post & ->). exists pre, (post +:+ u). by rewrite !append_assoc.
Qed.

Lemma contains_trimEnd s : contains (trim s) (trimEnd s).
Proof.
  destruct (trimEnd_trim s) as [ws ->]. apply contains_append_l, contains_refl.
Qed.

(** Trimming a text that starts solid keeps the trimmed form of whatever
    it ends with. *)
Lemma contains_trim_prefixed p s :
  startsSolid p -> contains (trim s) (trim (p +:+ s)).
Proof.
  intros Hp. unfold trim at 2.
  rewrite trimStart_solid by by apply startsSolid_append.
  rewrite trimEnd_append. destruct (nonEmpty (trimEnd s)) eqn:Hs.
  - apply contains_append_l, contains_trimEnd.
  - apply nonEmpty_false in Hs. destruct (trimEnd_trim s) as [ws E].
    rewrite Hs in E. destruct ws; [|done].
    rewrite append_nil in E. rewrite <- E. apply contains_empty.
Qed.

End Strings.

(** ** The Error Message Reconciler *)

Section Reconciler.

Implicit Types (l pre messages : list string) (v : string).

Lemma indexOf_lower v l : (-1 <= indexOf v l)%Z.
Proof.
  induction l as [|x l IH]; simpl; [lia|].
  destruct (String.eqb x v); [lia|]. destruct (Z.ltb_spec (indexOf v l) 0); lia.
Qed.

Lemma indexOf_app_in v pre l :
  v ∈ pre -> (0 <= indexOf v (pre ++ l) < Z.of_nat (length pre))%Z.
Proof.
  induction pre as [|x pre IH]; intros Hin; [by apply elem_of_nil in Hin|].
  simpl. destruct (String.eqb_spec x v) as [->|Hne]; [lia|].
  apply elem_of_cons in Hin as [->|Hin]; [done|].
  specialize (IH Hin). destruct (Z.ltb_spec (indexOf v (pre ++ l)) 0); lia.
Qed.

Lemma indexOf_app_first v pre l :
  v ∉ pre -> indexOf v (pre ++ v :: l) = Z.of_nat (length pre).
Proof.
  induction pre as [|x pre IH]; intros Hin; simpl.
  - by rewrite String.eqb_refl.
  - apply not_elem_of_cons in Hin as [Hne Hin].
    destruct (String.eqb_spec x v) as [->|_]; [done|].
    rewrite (IH Hin). destruct (Z.ltb_spec (Z.of_nat (length pre)) 0); lia.
Qed.

Lemma filter_not_in_snoc pre v l :
  filter (fun y => y ∉ pre ++ [v]) l = filter (fun y => y ∉ pre) (filter (fun y => y <> v) l).
Proof.
  rewrite list_filter_filter. apply list_filter_iff. intros y.
  rewrite elem_of_app, list_elem_of_singleton. tauto.
Qed.

(** The [filter] callback of the source keeps exactly the first
    occurrences. *)
Lemma filterFrom_first_occurrences l : forall arr pre,
  Forall (fun s => nonEmpty s = true) l ->
  arr = pre ++ l ->
  filterFrom (fun value index => nonEmpty value && (indexOf value arr =? Z.of_nat index)%Z)
    (length pre) l
  = filter (fun y => y ∉ pre) (stableDedup l).
Proof.
  induction l as [|x l IH]; intros arr pre Hne Harr; [done|].
  apply Forall_cons in Hne as [Hx Hne]. simpl filterFrom. rewrite Hx. simpl andb.
  assert (Hrest : filterFrom
            (fun value index => nonEmpty value && (indexOf value arr =? Z.of_nat index)%Z)
            (S (length pre)) l
          = filter (fun y => y ∉ pre) (filter (fun y => y <> x) (stableDedup l))).
  { rewrite <- filter_not_in_snoc.
    replace (S (length pre)) with (length (pre ++ [x])) by (rewrite length_app; simpl; lia).
    apply IH; [done|]. by rewrite <- app_assoc. }
  simpl stableDedup. destruct (decide (x ∈ pre)) as [Hin|Hin].
  - rewrite filter_cons_False by tauto.
    pose proof (indexOf_app_in x pre (x :: l) Hin) as Hlt. rewrite <- Harr in Hlt.
    destruct (Z.eqb_spec (indexOf x arr) (Z.of_nat (length pre))); [lia | exact Hrest].
  - rewrite filter_cons_True by done.
    rewrite Harr at 1. rewrite (indexOf_app_first x pre l Hin), Z.eqb_refl.
    by rewrite Hrest.
Qed.

Lemma uniqueMessages_stableDedup l :
  Forall (fun s => nonEmpty s = true) l -> uniqueMessages l = stableDedup l.
Proof.
  intros Hne. unfold uniqueMessages.
  pose proof (filterFrom_first_occurrences l l [] Hne eq_refl) as H.
  change (length []) with 0 in H. rewrite H. clear H.
  induction (stableDedup l) as [|y d IH]; [done|].
  rewrite filter_cons_True by apply not_elem_of_nil. by rewrite IH.
Qed.

(** What [stableDedup] is: no duplicates, the same strings, in the order
    of the input. *)
Lemma elem_of_stableDedup l v : v ∈ stableDedup l <-> v ∈ l.
Proof.
  induction l as [|x l IH]; [done|]. simpl.
  rewrite !elem_of_cons, list_elem_of_filter, IH.
  destruct (decide (v = x)); tauto.
Qed.

Lemma NoDup_stableDedup l : NoDup (stableDedup l).
Proof.
  induction l as [|x l IH]; simpl; [constructor|].
  constructor; [|by apply NoDup_filter].
  rewrite list_elem_of_filter. tauto.
Qed.

Lemma stableDedup_sublist l : stableDedup l `sublist_of` l.
Proof.
  induction l as [|x l IH]; simpl; [done|].
  apply sublist_skip. etrans; [apply sublist_filter | done].
Qed.

End Reconciler.

Section ReconcilerLoop.

Implicit Types (messages : list string).

Lemma trimmedNonBlank_field v :
  trimmedNonBlank v = if nonBlankField v then [trim (text v)] else [].
Proof. by destruct v. Qed.

Lemma pushStack_candidates messages (stack : option VitestStack.t) :
  pushStack messages stack = messages ++ flat_map stackCandidates (omap id [stack]).
Proof.
  destruct stack as [s|]; simpl; [|by rewrite app_nil_r].
  unfold stackCandidates, push. rewrite !trimmedNonBlank_field.
  destruct (nonBlankField (VitestStack.message s)); [done|].
  destruct (nonBlankField (VitestStack.stack s)); simpl; by rewrite ?app_nil_r.
Qed.

Lemma fold_pushStack (stacks : list (option VitestStack.t)) : forall messages,
  fold_left pushStack stacks messages
  = messages ++ flat_map stackCandidates (omap id stacks).
Proof.
  induction stacks as [|stack stacks IH]; intros messages; simpl.
  - by rewrite app_nil_r.
  - rewrite IH, pushStack_candidates, <- app_assoc. f_equal.
    destruct stack; simpl; by rewrite ?app_nil_r.
Qed.

Lemma pushError_candidates messages (error : option VitestTaskError.t) :
  pushError messages error = messages ++ flat_map errorCandidates (omap id [error]).
Proof.
  destruct error as [e|]; simpl; [|by rewrite app_nil_r].
  unfold errorCandidates, push. rewrite app_nil_r, !trimmedNonBlank_field.
  destruct (VitestTaskError.stacks e) as [stacks|].
  - rewrite fold_pushStack.
    destruct (nonBlankField (VitestTaskError.message e)); simpl; by rewrite <- ?app_assoc.
  - destruct (nonBlankField (VitestTaskError.message e)),
      (nonBlankField (VitestTaskError.stack e)); simpl; by rewrite <- ?app_assoc, ?app_nil_r.
Qed.

Lemma fold_pushError (errors : list (option VitestTaskError.t)) : forall messages,
  fold_left pushError errors messages
  = messages ++ flat_map errorCandidates (omap id errors).
Proof.
  induction errors as [|error errors IH]; intros messages; simpl.
  - by rewrite app_nil_r.
  - rewrite IH, pushError_candidates, <- app_assoc. f_equal.
    destruct error; simpl; by rewrite ?app_nil_r.
Qed.

Lemma trimmedNonBlank_nonEmpty v :
  Forall (fun s => nonEmpty s = true) (trimmedNonBlank v).
Proof.
  destruct v as [s|]; simpl; [|constructor].
  destruct (nonBlank s) eqn:Hs; repeat constructor. exact Hs.
Qed.

Lemma Forall_flat_map {A B} (P : B -> Prop) (f : A -> list B) (l : list A) :
  (forall x, Forall P (f x)) -> Forall P (flat_map f l).
Proof.
  intros Hf. induction l as [|x l IH]; simpl; [constructor|].
  apply Forall_app. split; [apply Hf | apply IH].
Qed.

Lemma candidates_nonEmpty errors :
  Forall (fun s => nonEmpty s = true) (candidates errors).
Proof.
  apply Forall_flat_map. intros e. unfold errorCandidates.
  apply Forall_app. split; [apply trimmedNonBlank_nonEmpty|].
  destruct (VitestTaskError.stacks e); [|apply trimmedNonBlank_nonEmpty].
  apply Forall_flat_map. intros s. unfold stackCandidates.
  pose proof (trimmedNonBlank_nonEmpty (VitestStack.message s)) as Hm.
  destruct (trimmedNonBlank (VitestStack.message s)); [|exact Hm].
  apply trimmedNonBlank_nonEmpty.
Qed.

Lemma stableDedup_nil l : stableDedup l = [] <-> l = [].
Proof. by destruct l. Qed.

End ReconcilerLoop.

(** C6.  For every sequence of task errors, absent or not,
    [formatTaskErrors] collects each error's trimmed non-blank message,
    then for each entry of its stacks sequence the entry's trimmed
    non-blank message or else its trimmed non-blank stack text (or the
    error's own trimmed non-blank stack text when it has no stacks
    sequence), keeps the first occurrence of every collected string in
    order, joins them with a blank line, and returns null exactly when
    there is no candidate; an absent and an empty input give null. *)
Theorem C6_formatTaskErrors_reconciles (errors : option (list (option VitestTaskError.t))) :
  formatTaskErrors errors
    = match stableDedup (candidates errors) with
      | [] => None
      | unique => Some (join blankLine unique)
      end
  /\ (formatTaskErrors errors = None <-> candidates errors = [])
  /\ formatTaskErrors None = None
  /\ formatTaskErrors (Some []) = None.
Proof.
  assert (Heq : formatTaskErrors errors = reconcile errors).
  { unfold reconcile. destruct errors as [[|e errors]|]; [done| |done].
    unfold formatTaskErrors. rewrite fold_pushError, app_nil_l.
    change (flat_map errorCandidates (omap id (e :: errors)))
      with (candidates (Some (e :: errors))).
    rewrite uniqueMessages_stableDedup by apply candidates_nonEmpty.
    by destruct (stableDedup _). }
  split; [exact Heq|]. split; [|done].
  rewrite Heq. unfold reconcile. rewrite <- stableDedup_nil.
  by destruct (stableDedup _).
Qed.

(** ** The Result Tree Flattener *)

Section TaskInduction.

Variable P : VitestTaskResult -> Prop.

Hypothesis step : forall type name mode tasks result,
  Forall (fun o => forall t, o = Some t -> P t) (childrenOf tasks) ->
  P (Task type name mode tasks result).

(** Induction on a task tree, with the property known of every child. *)
Lemma task_nested_ind : forall task, P task.
Proof.
  fix IH 1. intros [type name mode tasks result]. apply step.
  destruct tasks as [ts|]; [|constructor]. simpl.
  induction ts as [|[t|] rest IHrest]; constructor; try exact IHrest.
  - intros t' [= <-]. apply IH.
  - intros t' [=].
Qed.

End TaskInduction.

Lemma isLit_true (v : option string) (lit : string) : isLit v lit = true <-> v = Some lit.
Proof.
  destruct v as [s|]; simpl; [|done].
  destruct (String.eqb_spec s lit); split; congruence.
Qed.

Lemma isLit_suite_not_test (type : option string) :
  isLit type "suite" = true -> isLit type "test" = false.
Proof. intros ->%isLit_true. done. Qed.

Section Flattener.

Variable filePath : string.

Lemma forEachTask_collect (ts : list (option VitestTaskResult)) :
  Forall (fun o => forall t, o = Some t ->
            forall acc, collectTask filePath t acc
                        = acc ++ map (outcomeOf filePath) (reachedTests t)) ts ->
  forall acc,
    forEachTask (fun acc t => collectTask filePath t acc) ts acc
    = acc ++ map (outcomeOf filePath) (reachedTestsOf ts).
Proof.
  unfold forEachTask, reachedTestsOf.
  induction 1 as [|o rest Ho _ IH]; intros acc; simpl.
  - by rewrite app_nil_r.
  - rewrite IH, map_app, app_assoc. f_equal.
    destruct o as [t|]; [by apply Ho | by rewrite app_nil_r].
Qed.

Lemma collectTask_reached (task : VitestTaskResult) : forall acc,
  collectTask filePath task acc = acc ++ map (outcomeOf filePath) (reachedTests task).
Proof.
  induction task as [type name mode tasks result IH] using task_nested_ind.
  intros acc. simpl.
  destruct (isLit type "suite") eqn:Hsuite.
  - rewrite (isLit_suite_not_test _ Hsuite).
    destruct tasks as [ts|]; [by apply forEachTask_collect | by rewrite app_nil_r].
  - destruct (isLit type "test") eqn:Htest.
    + by rewrite andb_false_r.
    + rewrite andb_true_r. simpl.
      destruct tasks as [[|o ts]|]; simpl hasChildren; cbv iota;
        [by rewrite app_nil_r | | by rewrite app_nil_r].
      by apply forEachTask_collect.
Qed.

Lemma collectTaskResults_reached (tasks : list (option VitestTaskResult)) acc :
  collectTaskResults tasks filePath acc
  = acc ++ map (outcomeOf filePath) (reachedTestsOf tasks).
Proof.
  apply forEachTask_collect, Forall_forall. intros o _ t _ acc'.
  apply collectTask_reached.
Qed.

End Flattener.

Lemma reachedTests_typed (task : VitestTaskResult) :
  Forall (fun t => typeOf t = Some "test") (reachedTests task).
Proof.
  induction task as [type name mode tasks result IH] using task_nested_ind.
  simpl. destruct (isLit type "test") eqn:Htest.
  - repeat constructor. by apply isLit_true.
  - destruct tasks as [ts|]; [|constructor]. simpl in IH.
    induction IH as [|o rest Ho _ IHrest]; simpl; [constructor|].
    apply Forall_app. split; [|exact IHrest].
    destruct o as [t|]; [by apply Ho | constructor].
Qed.

Lemma reachedTestsOf_typed (tasks : list (option VitestTaskResult)) :
  Forall (fun t => typeOf t = Some "test") (reachedTestsOf tasks).
Proof.
  unfold reachedTestsOf. induction tasks as [|o rest IH]; simpl; [constructor|].
  apply Forall_app. split; [|exact IH].
  destruct o as [t|]; [apply reachedTests_typed | constructor].
Qed.

Lemma testResult_message filePath name mode result :
  TestRunResult.message (testResult filePath name mode result) = None
  <-> TestRunResult.passed (testResult filePath name mode result) = true.
Proof.
  unfold testResult.
  destruct (isLit (taskState mode result) "skip" || isLit (taskState mode result) "todo");
    [done|].
  by destruct (isLit (taskState mode result) "pass").
Qed.

Lemma testResult_skipOrTodo filePath name mode result :
  skipOrTodo (taskState mode result) = true ->
  TestRunResult.passed (testResult filePath name mode result) = true
  /\ TestRunResult.message (testResult filePath name mode result) = None.
Proof. unfold skipOrTodo, testResult. by intros ->. Qed.

(** Where the stated state is skip or todo, it is the state the code
    works with. *)
Lemma taskState_stated mode result :
  skipOrTodo (statedState mode result) = true ->
  taskState mode result = statedState mode result.
Proof.
  unfold taskState, statedState, skipOrTodo.
  destruct result as [r|]; simpl.
  - destruct (TaskResult.state r) as [s|]; [done|]. by intros ->.
  - by intros ->.
Qed.

Lemma testResult_stated_skipOrTodo filePath name mode result :
  skipOrTodo (statedState mode result) = true ->
  TestRunResult.passed (testResult filePath name mode result) = true
  /\ TestRunResult.message (testResult filePath name mode result) = None.
Proof.
  intros Hstate. apply testResult_skipOrTodo. by rewrite taskState_stated.
Qed.

(** C3.  Every result the flattener emits has a null message if and only
    if it passed.  The results answer, one by one and in order, to the
    tests the flattener reaches, and a test whose state is skip or todo,
    the state being the state field of its result or, when the result has
    none, its mode marker, is recorded as passed with a null message. *)
Theorem C3_message_null_iff_passed
    (tasks : list (option VitestTaskResult)) (filePath : string) :
  Forall (fun r => TestRunResult.message r = None <-> TestRunResult.passed r = true)
    (collectTaskResults tasks filePath [])
  /\ Forall2
       (fun task r =>
          skipOrTodo (statedStateOf task) = true ->
          TestRunResult.passed r = true /\ TestRunResult.message r = None)
       (reachedTestsOf tasks) (collectTaskResults tasks filePath [])
  /\ (forall name mode children result accumulator,
        skipOrTodo (statedState mode result) = true ->
        exists r,
          collectTaskResults [Some (Task (Some "test") name mode children result)]
            filePath accumulator
          = accumulator ++ [r]
          /\ TestRunResult.passed r = true /\ TestRunResult.message r = None).
Proof.
  split; [|split].
  - rewrite collectTaskResults_reached, app_nil_l.
    induction (reachedTestsOf tasks) as [|[type name mode ts result] l IH];
      constructor; [apply testResult_message | exact IH].
  - rewrite collectTaskResults_reached, app_nil_l.
    induction (reachedTestsOf tasks) as [|[type name mode ts result] l IH];
      constructor; [apply testResult_stated_skipOrTodo | exact IH].
  - intros name mode children result accumulator Hstate.
    exists (testResult filePath name mode result).
    split; [by rewrite collectTaskResults_reached|].
    by apply testResult_stated_skipOrTodo.
Qed.

(** Scenario C: a test with mode ["skip"] and no result. *)
Lemma C3_witness :
  exists r,
    collectTaskResults [Some (Task (Some "test") (Some "later") (Some "skip") None None)]
      "a.test.ts" []
    = [r]
    /\ TestRunResult.passed r = true /\ TestRunResult.message r = None.
Proof.
  apply (proj2 (proj2 (C3_message_null_iff_passed [] "a.test.ts"))
           (Some "later") (Some "skip") None None []).
  reflexivity.
Defined.

(** A state of ["skip"] or ["todo"] in the result, and a mode marker
    without a result: all three are recorded as passed. *)
Example idle_tests_pass :
  collectTaskResults idleTests "/w/a.test.ts" []
  = [TestRunResult.mk "a" "/w/a.test.ts" true None 0%Z;
     TestRunResult.mk "b" "/w/a.test.ts" true None 0%Z;
     TestRunResult.mk "c" "/w/a.test.ts" true None 0%Z].
Proof. reflexivity. Qed.

(** An explicit state wins over the mode marker: a failed test marked
    ["skip"] is a failure. *)
Example explicit_state_over_mode :
  let r := testResult "a.test.ts" (Some "t") (Some "skip")
             (Some (TaskResult.mk (Some "fail") None None)) in
  TestRunResult.passed r = false
  /\ TestRunResult.message r
     = Some "Vitest reported a failure without additional details.".
Proof. done. Qed.

(** C4 (amended).  For every task tree, the flattener appends to its
    accumulator exactly one outcome for each task typed ["test"] that the
    depth-first walk reaches, in the order of the walk, and nothing for any
    other node; the walk enters the children of every task except those of
    a ["test"], so that a suite or another container without children, an
    untyped leaf and a null entry contribute nothing. *)
Theorem C4_one_outcome_per_reached_test
    (tasks : list (option VitestTaskResult)) (filePath : string)
    (accumulator : list TestRunResult.t) :
  collectTaskResults tasks filePath accumulator
    = accumulator ++ map (outcomeOf filePath) (reachedTestsOf tasks)
  /\ Forall (fun t => typeOf t = Some "test") (reachedTestsOf tasks)
  /\ length (collectTaskResults tasks filePath accumulator)
     = length accumulator + length (reachedTestsOf tasks).
Proof.
  split; [apply collectTaskResults_reached|].
  split; [apply reachedTestsOf_typed|].
  by rewrite collectTaskResults_reached, length_app, length_map.
Qed.

(** A task typed ["test"] with a ["test"] among its children: the tree
    holds two tests and the flattener emits one outcome. *)
Lemma C4_counterexample :
  ~ (forall (tasks : list (option VitestTaskResult)) (filePath : string),
       length (collectTaskResults tasks filePath []) = length (allTestsOf tasks)).
Proof. intros H. specialize (H testUnderTest "a.test.ts"). discriminate H. Qed.

(** Scenario B: a test inside a suite. *)
Example nested_suite :
  collectTaskResults
    [Some (Task (Some "suite") (Some "outer") None
             (Some [Some (Task (Some "test") (Some "inner") None None
                            (Some (TaskResult.mk (Some "pass") (Some 5%Z) None)))])
             None)]
    "/w/a.test.ts" []
  = [TestRunResult.mk "inner" "/w/a.test.ts" true None 5%Z].
Proof. reflexivity. Qed.

(** Where no test has a test beneath it, the walk reaches every test. *)
Lemma reachedTests_all (task : VitestTaskResult) :
  Forall (fun t => match t with
                   | Task _ _ _ tasks _ => allTestsOf (childrenOf tasks) = []
                   end) (allTests task) ->
  reachedTests task = allTests task.
Proof.
  induction task as [type name mode tasks result IH] using task_nested_ind.
  simpl. destruct (isLit type "test").
  - intros [Hleaf _]%Forall_cons. destruct tasks as [ts|]; [|done].
    unfold allTestsOf, childrenOf in Hleaf. simpl in Hleaf. by rewrite Hleaf.
  - rewrite app_nil_l. destruct tasks as [ts|]; [|done]. simpl in IH.
    induction IH as [|o rest Ho _ IHrest]; simpl; [done|].
    intros [Hhead Hrest]%Forall_app. rewrite (IHrest Hrest). f_equal.
    destruct o as [t|]; [by apply Ho | done].
Qed.

(** ** The module loop and the Summary Builder *)

Lemma fold_left_durations (results : list TestRunResult.t) : forall total,
  fold_left (fun total r => (total + Z.max 0 (TestRunResult.durationMs r))%Z) results total
  = (total + totalDuration results)%Z.
Proof.
  unfold totalDuration, sumZ.
  induction results as [|r results IH]; intros total; simpl; [lia|].
  rewrite IH. lia.
Qed.

Lemma totalDuration_nonneg (results : list TestRunResult.t) : (0 <= totalDuration results)%Z.
Proof.
  unfold totalDuration, sumZ. induction results as [|r results IH]; simpl; lia.
Qed.

Lemma count_partition (results : list TestRunResult.t) :
  length results = countPassed results + countFailed results.
Proof.
  unfold countPassed, countFailed.
  induction results as [|r results IH]; [done|].
  destruct (TestRunResult.passed r) eqn:Hr.
  - rewrite filter_cons_True, filter_cons_False by congruence. simpl. lia.
  - rewrite filter_cons_False, filter_cons_True by congruence. simpl. lia.
Qed.

Lemma appendUnhandledErrors_spec (errors : option (list Unknown))
    (requestedFiles : list string) (results : list TestRunResult.t) :
  appendUnhandledErrors errors requestedFiles results
  = results ++ map (unhandledResult requestedFiles) (default [] errors).
Proof.
  assert (Hfold : forall errs acc,
    fold_left (fun results error =>
                 push results
                   (TestRunResult.mk "[unhandled]"
                      (default "[vitest]" (requestedFiles !! 0%nat)) false
                      (Some (formatUnhandledError error)) 0%Z)) errs acc
    = acc ++ map (unhandledResult requestedFiles) errs).
  { induction errs as [|e errs IH]; intros acc; simpl; [by rewrite app_nil_r|].
    rewrite IH. unfold push. by rewrite <- app_assoc. }
  destruct errors as [[|e errs]|]; simpl default; [by rewrite app_nil_r | | by rewrite app_nil_r].
  unfold appendUnhandledErrors. apply Hfold.
Qed.

Section ModuleLoop.

Variable resolve : string -> string.

(** [path.resolve] yields an absolute path, never the empty string. *)
Hypothesis resolve_nonEmpty : forall p, nonEmpty (resolve p) = true.

Lemma requestedSet_size (l : list string) :
  (0 <? size (list_to_set l : gset string))%nat = negb (length l =? 0)%nat.
Proof.
  destruct l as [|x l]; [done|]. simpl length. simpl negb.
  apply Nat.ltb_lt. apply Nat.neq_0_lt_0. intros Hsize.
  apply size_empty_iff in Hsize.
  assert (x ∈ (list_to_set (x :: l) : gset string)) as Hx by (apply elem_of_list_to_set; left).
  rewrite Hsize in Hx. by apply elem_of_empty in Hx.
Qed.

Lemma moduleFileOf_truthy (m : ModuleResult.t) :
  truthy (moduleFileOf resolve m) = filePresent m.
Proof.
  unfold moduleFileOf, filePresent.
  destruct (ModuleResult.filepath m) as [fp|]; [|done]. simpl.
  destruct (nonEmpty fp); [apply resolve_nonEmpty | done].
Qed.

Lemma moduleSkipped_dropped (requestedFiles : list string) (m : ModuleResult.t) :
  moduleSkipped (list_to_set (map resolve requestedFiles)) (moduleFileOf resolve m)
  = droppedModule resolve requestedFiles m.
Proof.
  unfold moduleSkipped, droppedModule.
  rewrite requestedSet_size, length_map, moduleFileOf_truthy.
  destruct (negb (length requestedFiles =? 0)%nat); [|done].
  unfold filePresent, moduleFileOf.
  destruct (ModuleResult.filepath m) as [fp|]; [|done]. simpl.
  destruct (nonEmpty fp); [|done]. simpl. f_equal.
  apply bool_decide_ext. apply elem_of_list_to_set.
Qed.

(** One iteration: a dropped module changes nothing; a kept one appends
    its outcomes and, when it has a file path, adds its own duration. *)
Lemma moduleStep_spec (requestedFiles : list string) (results : list TestRunResult.t)
    (moduleDuration : Z) (m : ModuleResult.t) :
  moduleStep resolve (list_to_set (map resolve requestedFiles)) requestedFiles
    (results, moduleDuration) m
  = if droppedModule resolve requestedFiles m then (results, moduleDuration)
    else (results ++ moduleOutcomes resolve requestedFiles m,
          (moduleDuration + if filePresent m then selfDuration m else 0)%Z).
Proof.
  unfold moduleStep. rewrite moduleSkipped_dropped.
  destruct (droppedModule resolve requestedFiles m); [done|].
  rewrite moduleFileOf_truthy. f_equal.
  - unfold moduleOutcomes, targetFileOf.
    destruct (ModuleResult.tasks m) as [tasks|]; [|by rewrite app_nil_r].
    apply collectTaskResults_reached.
  - unfold selfDuration.
    destruct (ModuleResult.result m ≫= ModuleResult.duration); destruct (filePresent m); lia.
Qed.

Lemma moduleLoop_spec (requestedFiles : list string) (modules : list ModuleResult.t) :
  forall results moduleDuration,
    fold_left (moduleStep resolve (list_to_set (map resolve requestedFiles)) requestedFiles)
      modules (results, moduleDuration)
    = (results ++ flattened resolve requestedFiles modules,
       (moduleDuration + durationPool resolve requestedFiles modules)%Z).
Proof.
  unfold flattened, durationPool, keptModules.
  induction modules as [|m modules IH]; intros results moduleDuration; cbn [fold_left].
  - rewrite app_nil_r. f_equal. unfold sumZ. simpl. lia.
  - rewrite moduleStep_spec.
    destruct (droppedModule resolve requestedFiles m) eqn:Hm.
    + rewrite filter_cons_False by congruence. apply IH.
    + rewrite filter_cons_True by done. rewrite IH. simpl flat_map.
      rewrite app_assoc. f_equal.
      destruct (filePresent m) eqn:Hf.
      * rewrite filter_cons_True by done. unfold sumZ. simpl. lia.
      * rewrite filter_cons_False by congruence. lia.
Qed.

(** The whole summary builder. *)
Lemma buildSummaryFromVitest_spec (modules : option (list ModuleResult.t))
    (unhandledErrors : option (list Unknown)) (requestedFiles : list string) :
  let results :=
    flattened resolve requestedFiles (default [] modules)
    ++ map (unhandledResult requestedFiles) (default [] unhandledErrors) in
  buildSummaryFromVitest resolve modules unhandledErrors requestedFiles
  = RunnerSummary.mk (countPassed results) (countFailed results) (length results)
      (if (0 <? totalDuration results)%Z then totalDuration results
       else durationPool resolve requestedFiles (default [] modules))
      results.
Proof.
  intros results. unfold buildSummaryFromVitest.
  rewrite moduleLoop_spec, app_nil_l, Z.add_0_l, appendUnhandledErrors_spec.
  fold results. rewrite fold_left_durations, Z.add_0_l. f_equal.
  rewrite (count_partition results) at 1. unfold countPassed. lia.
Qed.

End ModuleLoop.

(** ** The provider *)

Lemma createFailureSummary_files (files : list string) (message : string) :
  files <> [] ->
  createFailureSummary files message
  = RunnerSummary.mk 0 (length files) (length files) 0%Z
      (map (failureResult (trim message)) files).
Proof.
  intros Hne. destruct files as [|f files]; [done|].
  unfold createFailureSummary, failureResult. cbn -[trim]. by rewrite length_map.
Qed.

Lemma createFailureSummary_nil (message : string) :
  createFailureSummary [] message
  = RunnerSummary.mk 0 1 1 0%Z [failureResult (trim message) "[vitest]"].
Proof. reflexivity. Qed.

Lemma createFailureSummary_counts (files : list string) (message : string) :
  let s := createFailureSummary files message in
  RunnerSummary.total s = RunnerSummary.passed s + RunnerSummary.failed s
  /\ RunnerSummary.passed s = countPassed (RunnerSummary.results s)
  /\ RunnerSummary.failed s = countFailed (RunnerSummary.results s).
Proof.
  assert (Hall : forall m l,
    countPassed (map (failureResult m) l) = 0
    /\ countFailed (map (failureResult m) l) = length (map (failureResult m) l)).
  { intros m l. unfold countPassed, countFailed.
    induction l as [|f l [IHp IHf]]; [done|]. simpl map.
    rewrite filter_cons_False, filter_cons_True by done. simpl. by rewrite IHp, IHf. }
  destruct files as [|f files].
  - rewrite createFailureSummary_nil. done.
  - rewrite createFailureSummary_files by done. cbv zeta.
    cbn [RunnerSummary.total RunnerSummary.passed RunnerSummary.failed RunnerSummary.results].
    destruct (Hall (trim message) (f :: files)) as [Hp Hf].
    rewrite Hp, Hf, length_map. done.
Qed.

Lemma buildSummaryFromVitest_counts (resolve : string -> string)
    (modules : option (list ModuleResult.t)) (unhandledErrors : option (list Unknown))
    (requestedFiles : list string) :
  let s := buildSummaryFromVitest resolve modules unhandledErrors requestedFiles in
  RunnerSummary.total s = RunnerSummary.passed s + RunnerSummary.failed s
  /\ RunnerSummary.passed s = countPassed (RunnerSummary.results s)
  /\ RunnerSummary.failed s = countFailed (RunnerSummary.results s).
Proof.
  unfold buildSummaryFromVitest.
  destruct (fold_left _ _ _) as [results moduleDuration]. simpl.
  set (all := appendUnhandledErrors unhandledErrors requestedFiles results).
  pose proof (count_partition all) as Hall. unfold countPassed in *. lia.
Qed.

(** C2.  Every summary [runTests] returns, whether built from the engine's
    results, synthesised for a failure or empty for an empty file list,
    has [total = passed + failed], [passed] the number of results that
    passed and [failed] the number of results that did not. *)
Theorem C2_counts_partition_results
    (resolve : string -> string) (relative : string -> string -> string) (cwd : string)
    (engine : Engine) (files : list string) (env : Env) :
  let s := fst (runTests resolve relative cwd engine files env) in
  RunnerSummary.total s = RunnerSummary.passed s + RunnerSummary.failed s
  /\ RunnerSummary.passed s = countPassed (RunnerSummary.results s)
  /\ RunnerSummary.failed s = countFailed (RunnerSummary.results s).
Proof.
  unfold runTests. destruct (length files =? 0)%nat; [done|].
  unfold runVitest. destruct (load engine); try apply createFailureSummary_counts.
  cbv zeta. destruct (outcome _) as [error|getFiles getUnhandledErrors];
    [apply createFailureSummary_counts|]. simpl fst.
  destruct (0 <? _)%Z; apply buildSummaryFromVitest_counts.
Qed.

Lemma countPassed_unhandled (requestedFiles : list string) (errors : list Unknown)
    (l : list TestRunResult.t) :
  countPassed (l ++ map (unhandledResult requestedFiles) errors) = countPassed l.
Proof.
  unfold countPassed. rewrite filter_app, length_app.
  induction errors as [|e errs IH]; simpl map; [simpl; lia|].
  rewrite filter_cons_False by done. exact IH.
Qed.

(** C8.  For every sequence of unhandled errors, the summary builder
    appends, after the flattened results, one failing result per error,
    named ["[unhandled]"], filed under the first requested file or the
    placeholder, with message [formatUnhandledError error] and duration 0;
    the flattened results and the passed count stay as they are without
    the errors, the failed count and the total grow by the number of
    errors. *)
Theorem C8_unhandled_errors_appended
    (resolve : string -> string) (modules : option (list ModuleResult.t))
    (errors : list Unknown) (requestedFiles : list string) :
  let clean := buildSummaryFromVitest resolve modules None requestedFiles in
  let s := buildSummaryFromVitest resolve modules (Some errors) requestedFiles in
  RunnerSummary.results s
    = RunnerSummary.results clean
      ++ map (fun error =>
                TestRunResult.mk "[unhandled]" (default "[vitest]" (requestedFiles !! 0%nat))
                  false (Some (formatUnhandledError error)) 0%Z) errors
  /\ RunnerSummary.passed s = RunnerSummary.passed clean
  /\ RunnerSummary.failed s = RunnerSummary.failed clean + length errors
  /\ RunnerSummary.total s = RunnerSummary.total clean + length errors.
Proof.
  intros clean s.
  assert (Hres : RunnerSummary.results s
                 = RunnerSummary.results clean ++ map (unhandledResult requestedFiles) errors).
  { unfold s, clean, buildSummaryFromVitest.
    destruct (fold_left _ _ _) as [results moduleDuration].
    cbn [RunnerSummary.results].
    rewrite !appendUnhandledErrors_spec. simpl. by rewrite app_nil_r. }
  pose proof (countPassed_unhandled requestedFiles errors) as Hcount.
  destruct (buildSummaryFromVitest_counts resolve modules (Some errors) requestedFiles)
    as (Ht & Hp & Hf).
  destruct (buildSummaryFromVitest_counts resolve modules None requestedFiles)
    as (Ht' & Hp' & Hf').
  fold s in Ht, Hp, Hf. fold clean in Ht', Hp', Hf'.
  pose proof (count_partition (RunnerSummary.results s)) as Hs.
  pose proof (count_partition (RunnerSummary.results clean)) as Hc.
  assert (Hlen : length (RunnerSummary.results s)
                 = length (RunnerSummary.results clean) + length errors)
    by (by rewrite Hres, length_app, length_map).
  assert (Hpp : RunnerSummary.passed s = RunnerSummary.passed clean)
    by (by rewrite Hp, Hp', Hres, Hcount).
  split; [exact Hres|]. split; [exact Hpp|]. lia.
Qed.

(** ** The environment markers *)

Lemma markers_distinct :
  WEBSTIR_TEST_PROVIDER <> WEBSTIR_TESTING_PROVIDER
  /\ WEBSTIR_TEST_PROVIDER <> WEBSTIR_TESTING_PROVIDER_SPEC
  /\ WEBSTIR_TESTING_PROVIDER <> WEBSTIR_TESTING_PROVIDER_SPEC.
Proof. by repeat split. Qed.

Lemma restoreEnv_lookup (key : string) (original : option string) (env : Env) (k : string) :
  restoreEnv key original env !! k = if decide (key = k) then original else env !! k.
Proof.
  destruct original as [v|]; simpl.
  - rewrite lookup_insert. by case_decide.
  - rewrite lookup_delete. by case_decide.
Qed.

Lemma setMarkers_lookup (env : Env) (k : string) :
  setMarkers env !! k
  = if decide (WEBSTIR_TESTING_PROVIDER_SPEC = k)
    then Some (default "" (env !! WEBSTIR_TESTING_PROVIDER_SPEC))
    else if decide (WEBSTIR_TESTING_PROVIDER = k) then Some "@webstir-io/vitest-testing"
    else if decide (WEBSTIR_TEST_PROVIDER = k) then Some "vitest"
    else env !! k.
Proof. unfold setMarkers. rewrite !lookup_insert. by repeat case_decide. Qed.

(** The environment [runVitest] leaves once the engine was called. *)
Lemma runVitest_env (resolve : string -> string) (relative : string -> string -> string)
    (cwd : string) (engine : Engine) (files : list string) (env : Env) (k : string) :
  load engine = Loaded ->
  snd (runVitest resolve relative cwd engine files env) !! k
  = if decide (k ∈ markers) then env !! k
    else envAfter (engineRun resolve relative cwd engine files env) !! k.
Proof.
  intros Hload. unfold runVitest. rewrite Hload. cbv zeta. cbn [snd].
  rewrite !restoreEnv_lookup. fold (engineRun resolve relative cwd engine files env).
  unfold markers.
  destruct (decide (WEBSTIR_TESTING_PROVIDER_SPEC = k)) as [<-|N3];
    [rewrite decide_True; [done | repeat constructor]|].
  destruct (decide (WEBSTIR_TESTING_PROVIDER = k)) as [<-|N2];
    [rewrite decide_True; [done | repeat constructor]|].
  destruct (decide (WEBSTIR_TEST_PROVIDER = k)) as [<-|N1];
    [rewrite decide_True; [done | repeat constructor]|].
  rewrite decide_False; [done|].
  rewrite !elem_of_cons, elem_of_nil. intros [->|[->|[->|[]]]]; congruence.
Qed.

(** C9.  Whenever [runVitest] reaches the engine call, the engine sees the
    provider-kind marker set to ["vitest"], the provider-identity marker
    set to the package name and the provider-spec marker set to its own
    prior value or the empty string, every other variable unchanged; and
    whether the call returns or throws, afterwards each marker has exactly
    its prior value, being absent if it was absent, while every other
    variable is as the engine left it, so that an engine that leaves the
    environment alone leaves it as before the call. *)
Theorem C9_markers_set_and_restored
    (resolve : string -> string) (relative : string -> string -> string) (cwd : string)
    (engine : Engine) (files : list string) (env : Env) :
  load engine = Loaded ->
  let during := setMarkers env in
  let run := engineRun resolve relative cwd engine files env in
  let after := snd (runVitest resolve relative cwd engine files env) in
  (during !! WEBSTIR_TEST_PROVIDER = Some "vitest"
   /\ during !! WEBSTIR_TESTING_PROVIDER = Some "@webstir-io/vitest-testing"
   /\ during !! WEBSTIR_TESTING_PROVIDER_SPEC
      = Some (default "" (env !! WEBSTIR_TESTING_PROVIDER_SPEC))
   /\ forall k, k ∉ markers -> during !! k = env !! k)
  /\ (forall k, k ∈ markers -> after !! k = env !! k)
  /\ (forall k, k ∉ markers -> after !! k = envAfter run !! k)
  /\ (envAfter run = during -> after = env).
Proof.
  intros Hload during run after.
  assert (Hafter : forall k, after !! k
                     = if decide (k ∈ markers) then env !! k else envAfter run !! k)
    by (intros k; by apply runVitest_env).
  assert (Hduring : forall k, k ∉ markers -> during !! k = env !! k).
  { intros k Hk. unfold during. rewrite setMarkers_lookup. unfold markers in Hk.
    rewrite !elem_of_cons, elem_of_nil in Hk.
    repeat case_decide; try done; exfalso; apply Hk; subst; auto. }
  split; [|split; [|split]].
  - unfold during. rewrite !setMarkers_lookup. done.
  - intros k Hk. rewrite Hafter. by case_decide.
  - intros k Hk. rewrite Hafter. by case_decide.
  - intros Hrun. apply map_eq. intros k. rewrite Hafter, Hrun.
    case_decide; [done | by apply Hduring].
Qed.

(** The call throws; the spec marker was set before, the kind marker was
    not. *)
Lemma C9_witness :
  let env : Env := {[ WEBSTIR_TESTING_PROVIDER_SPEC := "../checkout" ]} in
  snd (runVitest sampleResolve sampleRelative sampleCwd throwingEngine ["a.test.ts"] env) = env.
Proof.
  intros env.
  apply (C9_markers_set_and_restored sampleResolve sampleRelative sampleCwd
           throwingEngine ["a.test.ts"] env); reflexivity.
Defined.

(** ** Failure messages *)

Lemma startsSolid_nonBlank (s : string) : startsSolid s -> nonBlank s = true.
Proof.
  intros Hs. unfold nonBlank, trim. rewrite trimStart_solid by done.
  apply startsSolid_trimEnd in Hs. by destruct (trimEnd s).
Qed.

Lemma contains_trans (s t u : string) : contains s t -> contains t u -> contains s u.
Proof.
  intros Hst (pre & post & ->). by apply contains_append_l, contains_append_r.
Qed.

Lemma join_cons (sep x y : string) (l : list string) :
  join sep (x :: y :: l) = x +:+ sep +:+ join sep (y :: l).
Proof. reflexivity. Qed.

Lemma contains_join (sep s : string) (l : list string) : s ∈ l -> contains s (join sep l).
Proof.
  induction l as [|x [|y l] IH]; intros Hin.
  - by apply elem_of_nil in Hin.
  - apply list_elem_of_singleton in Hin as ->. apply contains_refl.
  - rewrite join_cons. apply elem_of_cons in Hin as [->|Hin].
    + apply contains_append_r, contains_refl.
    + by apply contains_append_l, contains_append_l, IH.
Qed.

(** The sections of a failure message. *)
Lemma formatFailureMessage_sections (reason stdout stderr : string) :
  formatFailureMessage reason stdout stderr
  = join blankLine
      ([trim reason]
       ++ (if nonBlank stdout then ["[stdout]" +:+ LF +:+ trim stdout] else [])
       ++ (if nonBlank stderr then ["[stderr]" +:+ LF +:+ trim stderr] else [])).
Proof.
  unfold formatFailureMessage, nonBlank, push.
  by destruct (nonEmpty (trim stdout)), (nonEmpty (trim stderr)).
Qed.

(** A failure message with a non-blank reason has no white space at its
    ends: [createFailureSummary] stores it as it is. *)
Lemma formatFailureMessage_trimmed (reason stdout stderr : string) :
  nonBlank reason = true ->
  trim (formatFailureMessage reason stdout stderr) = formatFailureMessage reason stdout stderr.
Proof.
  intros Hr. rewrite formatFailureMessage_sections.
  destruct (trim_solid reason Hr) as [Hstart Hend].
  destruct (nonBlank stdout) eqn:Hout, (nonBlank stderr) eqn:Herr; simpl app;
    rewrite ?join_cons; try apply trim_idem;
    (apply trim_fixed; [by apply startsSolid_append|]);
    repeat apply endsSolid_append; by apply trim_solid.
Qed.

Lemma formatFailureMessage_contains (reason stdout stderr : string) :
  let message := formatFailureMessage reason stdout stderr in
  contains (trim reason) message
  /\ (nonBlank stdout = true -> contains (trim stdout) message)
  /\ (nonBlank stderr = true -> contains (trim stderr) message).
Proof.
  intros message. unfold message. rewrite formatFailureMessage_sections.
  split; [|split].
  - apply contains_join. by left.
  - intros ->. eapply contains_trans; [|apply contains_join; right; by left].
    apply contains_append_l, contains_append_l, contains_refl.
  - intros ->. eapply contains_trans;
      [|apply contains_join; rewrite !elem_of_app; right; right; by left].
    apply contains_append_l, contains_append_l, contains_refl.
Qed.

Lemma executionReason_solid (error : Thrown) : startsSolid (executionReason error).
Proof. by destruct error. Qed.

(** ** Failed invocations *)

Section Failures.

Variable resolve : string -> string.
Variable relative : string -> string -> string.
Variable cwd : string.

(** The text of a failed import starts with the package tag. *)
Lemma loadFailure_text (text : string) :
  loadFailurePrefix +:+ text
  = "[webstir-io/vitest-testing] " +:+ "Unable to load the Vitest runtime: " +:+ text.
Proof. reflexivity. Qed.

(** A failed [runVitest] returns the failure summary of some message that,
    once trimmed, holds the trimmed reason and the trimmed captured
    output. *)
Lemma runVitest_failure (engine : Engine) (files : list string) (env : Env) (f : Failure) :
  engineFailure engine (engineRun resolve relative cwd engine files env) = Some f ->
  exists message,
    fst (runVitest resolve relative cwd engine files env) = createFailureSummary files message
    /\ contains (trim (reason f)) (trim message)
    /\ (nonBlank (capturedStdout f) = true -> contains (trim (capturedStdout f)) (trim message))
    /\ (nonBlank (capturedStderr f) = true -> contains (trim (capturedStderr f)) (trim message)).
Proof.
  intros Hfail. unfold engineFailure in Hfail. unfold runVitest.
  destruct (load engine) as [|error| |].
  - injection Hfail as <-. eexists. split; [reflexivity|].
    split; [|split; discriminate].
    exists "[webstir-io/vitest-testing] ",
      (" Install " +:+ String "034"
         ("vitest" +:+ String "034" " in the active workspace or ensure it can be resolved.")).
    reflexivity.
  - eexists. split; [reflexivity|]. rewrite loadFailure_text.
    destruct error as [message|coerced]; injection Hfail as <-;
      (split; [by apply contains_trim_prefixed | split; discriminate]).
  - injection Hfail as <-. eexists. split; [reflexivity|].
    split; [|split; discriminate].
    exists "[webstir-io/vitest-testing] ", "". reflexivity.
  - cbv zeta. fold (engineRun resolve relative cwd engine files env).
    destruct (outcome _) as [error|getFiles getUnhandledErrors]; [|discriminate].
    eexists. split; [reflexivity|].
    rewrite formatFailureMessage_trimmed
      by apply startsSolid_nonBlank, executionReason_solid.
    destruct error as [message|coerced]; injection Hfail as <-;
      apply formatFailureMessage_contains.
Qed.

Lemma runTests_failure (engine : Engine) (files : list string) (env : Env) (f : Failure) :
  files <> [] ->
  engineFailure engine (engineRun resolve relative cwd engine files env) = Some f ->
  exists message,
    fst (runTests resolve relative cwd engine files env) = createFailureSummary files message
    /\ contains (trim (reason f)) (trim message)
    /\ (nonBlank (capturedStdout f) = true -> contains (trim (capturedStdout f)) (trim message))
    /\ (nonBlank (capturedStderr f) = true -> contains (trim (capturedStderr f)) (trim message)).
Proof.
  intros Hfiles Hfail. unfold runTests.
  destruct files as [|file files]; [done|]. simpl Nat.eqb. cbv iota.
  by apply runVitest_failure.
Qed.

(** C1.  Whenever the engine is unavailable, fails to load, lacks
    [startVitest] or throws during the call, no error escapes: there is a
    message that holds the trimmed failure reason and the trimmed text of
    each non-blank captured stream, such that [runTests] with a non-empty
    file list returns the summary of exactly one failing result per
    requested file, in order, each named ["[vitest provider]"] with
    [passed = false] and that message; and such that [runVitest] with an
    empty file list returns the summary of exactly one such result. *)
Theorem C1_failures_become_failing_summaries
    (engine : Engine) (files : list string) (env : Env) (f : Failure) :
  engineFailure engine (engineRun resolve relative cwd engine files env) = Some f ->
  exists message,
    contains (trim (reason f)) message
    /\ (nonBlank (capturedStdout f) = true -> contains (trim (capturedStdout f)) message)
    /\ (nonBlank (capturedStderr f) = true -> contains (trim (capturedStderr f)) message)
    /\ (files <> [] ->
        fst (runTests resolve relative cwd engine files env)
        = RunnerSummary.mk 0 (length files) (length files) 0%Z
            (map (fun file =>
                    TestRunResult.mk "[vitest provider]" file false (Some message) 0%Z)
               files))
    /\ (files = [] ->
        fst (runVitest resolve relative cwd engine files env)
        = RunnerSummary.mk 0 1 1 0%Z
            [TestRunResult.mk "[vitest provider]" "[vitest]" false (Some message) 0%Z]).
Proof.
  intros Hfail.
  destruct (runVitest_failure engine files env f Hfail)
    as (message & Hs & Hreason & Hout & Herr).
  exists (trim message). split; [exact Hreason|]. split; [exact Hout|].
  split; [exact Herr|]. split.
  - intros Hfiles. unfold runTests.
    destruct files as [|file files]; [done|]. simpl Nat.eqb. cbv iota.
    rewrite Hs. by apply createFailureSummary_files.
  - intros ->. rewrite Hs. apply createFailureSummary_nil.
Qed.

(** C10.  Whenever an engine failure is turned into a failure summary,
    the duration of the summary and of each of its results is 0, whatever
    time the engine call took, and the files of the results are the
    requested path strings as the caller gave them. *)
Theorem C10_failure_summary_zero_duration_verbatim_files
    (engine : Engine) (files : list string) (env : Env) (f : Failure) :
  files <> [] ->
  engineFailure engine (engineRun resolve relative cwd engine files env) = Some f ->
  let s := fst (runTests resolve relative cwd engine files env) in
  RunnerSummary.durationMs s = 0%Z
  /\ Forall (fun r => TestRunResult.durationMs r = 0%Z) (RunnerSummary.results s)
  /\ map TestRunResult.file (RunnerSummary.results s) = files.
Proof.
  intros Hfiles Hfail s.
  destruct (runTests_failure engine files env f Hfiles Hfail) as (message & Hs & _).
  unfold s. rewrite Hs, createFailureSummary_files by done.
  cbn [RunnerSummary.durationMs RunnerSummary.results].
  split; [done|]. split.
  - apply Forall_forall. intros r (file & <- & _)%list_elem_of_In%in_map_iff. done.
  - rewrite map_map. simpl. apply map_id.
Qed.

End Failures.

(** Scenario A: the engine is not installed. *)
Lemma C1_witness :
  exists message,
    fst (runTests sampleResolve sampleRelative sampleCwd missingEngine ["a.test.ts"] ∅)
    = RunnerSummary.mk 0 1 1 0%Z
        [TestRunResult.mk "[vitest provider]" "a.test.ts" false (Some message) 0%Z]
    /\ contains "not installed" message.
Proof.
  destruct (C1_failures_become_failing_summaries sampleResolve sampleRelative sampleCwd
              missingEngine ["a.test.ts"] ∅ (mkFailure "Vitest runtime not installed." "" ""))
    as (message & Hreason & _ & _ & Hs & _); [reflexivity|].
  exists message. split; [by apply Hs|].
  eapply contains_trans; [|exact Hreason].
  by exists "Vitest runtime ", ".".
Defined.

(** A failed import: the message of the thrown error, trimmed, closes the
    message of the result. *)
Example import_failure_message :
  RunnerSummary.results
    (fst (runTests sampleResolve sampleRelative sampleCwd brokenEngine ["a.test.ts"] ∅))
  = [TestRunResult.mk "[vitest provider]" "a.test.ts" false
       (Some ("[webstir-io/vitest-testing] Unable to load the Vitest runtime: "
              +:+ "Cannot find module vite")) 0%Z].
Proof. reflexivity. Qed.

(** A call that throws a value that is not an [Error]: the message has the
    bare sentence and the captured text, not the value. *)
Example rejected_call_message :
  RunnerSummary.results
    (fst (runTests sampleResolve sampleRelative sampleCwd rejectingEngine ["a.test.ts"] ∅))
  = [TestRunResult.mk "[vitest provider]" "a.test.ts" false
       (Some ("Vitest execution failed." +:+ blankLine +:+ "[stderr]" +:+ LF
              +:+ "worker exited")) 0%Z].
Proof. reflexivity. Qed.

(** With an empty file list [runVitest] still reports the failure, under
    the placeholder file; [runTests] does not reach it. *)
Example empty_list_failure :
  RunnerSummary.results
    (fst (runVitest sampleResolve sampleRelative sampleCwd missingEngine [] ∅))
  = [TestRunResult.mk "[vitest provider]" "[vitest]" false
       (Some ("[webstir-io/vitest-testing] Vitest runtime not installed. Install "
              +:+ String "034"
                    ("vitest" +:+ String "034"
                       " in the active workspace or ensure it can be resolved."))) 0%Z].
Proof. reflexivity. Qed.

(** The engine throws after 200 ms; the relative path comes back as given. *)
Lemma C10_witness :
  let s := fst (runTests sampleResolve sampleRelative sampleCwd throwingEngine
                  ["a.test.ts"] ∅) in
  RunnerSummary.durationMs s = 0%Z
  /\ Forall (fun r => TestRunResult.durationMs r = 0%Z) (RunnerSummary.results s)
  /\ map TestRunResult.file (RunnerSummary.results s) = ["a.test.ts"].
Proof.
  apply (C10_failure_summary_zero_duration_verbatim_files sampleResolve sampleRelative
           sampleCwd throwingEngine ["a.test.ts"] ∅
           (mkFailure "Vitest execution failed: boom " " collected 1 file " ""));
    [done | reflexivity].
Defined.

(** The message of a thrown engine call: reason and captured output,
    trimmed, under their headings. *)
Example execution_failure_message :
  RunnerSummary.results
    (fst (runTests sampleResolve sampleRelative sampleCwd throwingEngine ["a.test.ts"] ∅))
  = [TestRunResult.mk "[vitest provider]" "a.test.ts" false
       (Some ("Vitest execution failed: boom" +:+ blankLine +:+ "[stdout]" +:+ LF
              +:+ "collected 1 file")) 0%Z].
Proof. reflexivity. Qed.

(** ** Module filtering and the duration rollup *)

Lemma sampleResolve_nonEmpty (p : string) : nonEmpty (sampleResolve p) = true.
Proof.
  unfold sampleResolve. destruct (startsWith "/" p) eqn:Hp; [|done].
  by destruct p.
Qed.

(** The decision to drop a module, in words. *)
Lemma droppedModule_iff (resolve : string -> string) (requestedFiles : list string)
    (m : ModuleResult.t) :
  droppedModule resolve requestedFiles m = true
  <-> requestedFiles <> []
      /\ exists fp, ModuleResult.filepath m = Some fp /\ fp <> ""
                    /\ resolve fp ∉ map resolve requestedFiles.
Proof.
  unfold droppedModule, filePresent, truthy. split.
  - intros [[Hreq Hfp]%andb_true_iff Hmem%negb_true_iff]%andb_true_iff.
    split; [by destruct requestedFiles|].
    destruct (ModuleResult.filepath m) as [fp|]; [|done].
    exists fp. split; [done|]. split; [by destruct fp|].
    by apply bool_decide_eq_false in Hmem.
  - intros (Hreq & fp & -> & Hfp & Hmem).
    rewrite !andb_true_iff. split; [split|].
    + by destruct requestedFiles.
    + by destruct fp.
    + by apply negb_true_iff, bool_decide_eq_false.
Qed.

Section Rollup.

Variable resolve : string -> string.
Variable relative : string -> string -> string.
Variable cwd : string.

Hypothesis resolve_nonEmpty : forall p, nonEmpty (resolve p) = true.

(** C7 (amended).  A module result is dropped, leaving outcomes and
    duration pool as they were, exactly when files were requested, the
    module has a file path and the path is none of the requested ones;
    every other module appends its outcomes, and adds its non-negative
    own duration to the pool when it has a file path, whether or not it
    has tasks. *)
Theorem C7_module_filter_and_duration_pool
    (requestedFiles : list string) (modules : list ModuleResult.t) (m : ModuleResult.t)
    (results : list TestRunResult.t) (moduleDuration : Z) :
  let requestedSet : gset string := list_to_set (map resolve requestedFiles) in
  (droppedModule resolve requestedFiles m = true
   <-> requestedFiles <> []
       /\ exists fp, ModuleResult.filepath m = Some fp /\ fp <> ""
                     /\ resolve fp ∉ map resolve requestedFiles)
  /\ moduleStep resolve requestedSet requestedFiles (results, moduleDuration) m
     = (if droppedModule resolve requestedFiles m then (results, moduleDuration)
        else (results ++ moduleOutcomes resolve requestedFiles m,
              (moduleDuration + if filePresent m then selfDuration m else 0)%Z))
  /\ fold_left (moduleStep resolve requestedSet requestedFiles) modules
       (results, moduleDuration)
     = (results ++ flattened resolve requestedFiles modules,
        (moduleDuration + durationPool resolve requestedFiles modules)%Z).
Proof.
  intros requestedSet. split; [apply droppedModule_iff|].
  split; [by apply moduleStep_spec | by apply moduleLoop_spec].
Qed.

(** C5 (amended).  For every summary built from an engine call that
    returned, [durationMs] is the sum of the non-negative durations of the
    results when that sum is positive, otherwise the duration pool of the
    modules when that is positive, otherwise the wall-clock time the call
    took. *)
Theorem C5_duration_rollup_of_returned_calls
    (engine : Engine) (files : list string) (env : Env)
    (modules : list ModuleResult.t) (unhandled : option (list Unknown)) :
  files <> [] ->
  load engine = Loaded ->
  outcome (engineRun resolve relative cwd engine files env) = Returns modules unhandled ->
  let s := fst (runTests resolve relative cwd engine files env) in
  RunnerSummary.durationMs s
  = rollup (totalDuration (RunnerSummary.results s))
      (durationPool resolve (map resolve files) modules)
      (elapsed (engineRun resolve relative cwd engine files env)).
Proof.
  intros Hfiles Hload Hout. unfold runTests.
  destruct files as [|file files]; [done|]. simpl Nat.eqb. cbv iota zeta.
  unfold runVitest. rewrite Hload. cbv zeta.
  fold (engineRun resolve relative cwd engine (file :: files) env). rewrite Hout.
  cbn [fst]. rewrite buildSummaryFromVitest_spec by done. cbv zeta.
  cbn [RunnerSummary.durationMs default from_option id].
  set (results := flattened resolve _ _ ++ _).
  unfold rollup.
  destruct (0 <? totalDuration results)%Z eqn:Htests.
  - rewrite Htests. cbn [RunnerSummary.durationMs RunnerSummary.results]. by rewrite Htests.
  - destruct (0 <? durationPool resolve _ modules)%Z eqn:Hpool;
      cbn [RunnerSummary.durationMs RunnerSummary.results]; by rewrite Htests.
Qed.

End Rollup.

(** A failed engine call of 200 ms: the summary has duration 0, which no
    fallback duration reconciles with the rollup. *)
Lemma C5_counterexample :
  ~ (forall (resolve : string -> string) (relative : string -> string -> string)
       (cwd : string) (engine : Engine) (files : list string) (env : Env),
       files <> [] ->
       load engine = Loaded ->
       let s := fst (runTests resolve relative cwd engine files env) in
       exists fallback,
         RunnerSummary.durationMs s
         = rollup (totalDuration (RunnerSummary.results s)) fallback
             (elapsed (engineRun resolve relative cwd engine files env))).
Proof.
  intros H.
  destruct (H sampleResolve sampleRelative sampleCwd throwingEngine ["a.test.ts"] ∅)
    as [fallback Hfallback]; [done | reflexivity |].
  change (0 = rollup 0 fallback 200)%Z in Hfallback. unfold rollup in Hfallback.
  simpl in Hfallback. destruct (Z.ltb_spec 0 fallback); lia.
Qed.

(** Scenario F: the tests took no time, the module reports 120 ms and the
    call took 200 ms. *)
Lemma C5_witness :
  RunnerSummary.durationMs
    (fst (runTests sampleResolve sampleRelative sampleCwd
            (returningEngine [sampleModule] []) ["a.test.ts"] ∅))
  = 120%Z.
Proof.
  rewrite (C5_duration_rollup_of_returned_calls sampleResolve sampleRelative sampleCwd
             sampleResolve_nonEmpty (returningEngine [sampleModule] []) ["a.test.ts"] ∅
             [sampleModule] (Some []));
    [reflexivity | done | reflexivity | reflexivity].
Defined.

(** A kept module without a file path reports 120 ms and the pool stays
    empty. *)
Lemma C7_counterexample :
  ~ (forall (resolve : string -> string) (requestedFiles : list string)
       (modules : list ModuleResult.t),
       (forall p, nonEmpty (resolve p) = true) ->
       snd (fold_left
              (moduleStep resolve (list_to_set (map resolve requestedFiles)) requestedFiles)
              modules ([], 0%Z))
       = poolOfAllKept resolve requestedFiles modules).
Proof.
  intros H.
  specialize (H sampleResolve ["/w/a.test.ts"] [anonymousModule] sampleResolve_nonEmpty).
  vm_compute in H. discriminate H.
Qed.

(** One requested file; the module of another file is dropped, the
    requested one pays its 120 ms into the pool. *)
Lemma C7_witness :
  fold_left
    (moduleStep sampleResolve (list_to_set (map sampleResolve ["/w/a.test.ts"]))
       ["/w/a.test.ts"])
    [foreignModule; sampleModule] ([], 0%Z)
  = ([TestRunResult.mk "one" "/w/a.test.ts" true None 0%Z;
      TestRunResult.mk "two" "/w/a.test.ts" true None 0%Z], 120%Z).
Proof.
  rewrite (proj2 (proj2 (C7_module_filter_and_duration_pool sampleResolve
                           sampleResolve_nonEmpty ["/w/a.test.ts"]
                           [foreignModule; sampleModule] sampleModule [] 0%Z))).
  reflexivity.
Defined.

(** The same module observed through [runTests]: the summary falls back
    to the 200 ms of the call, not to the 120 ms the module reports. *)
Example anonymous_module_duration :
  RunnerSummary.durationMs
    (fst (runTests sampleResolve sampleRelative sampleCwd
            (returningEngine [anonymousModule] []) ["a.test.ts"] ∅))
  = 200%Z.
Proof. reflexivity. Qed.

(** ** Files of the results of a returned call *)

Lemma outcomeOf_file (filePath : string) (task : VitestTaskResult) :
  TestRunResult.file (outcomeOf filePath task) = orElse filePath "[vitest]".
Proof.
  destruct task as [type name mode tasks result]. unfold outcomeOf, testResult.
  by destruct (isLit (taskState mode result) "skip" || isLit (taskState mode result) "todo").
Qed.

Section ResolvedFiles.

Variable resolve : string -> string.
Variable relative : string -> string -> string.
Variable cwd : string.

Hypothesis resolve_nonEmpty : forall p, nonEmpty (resolve p) = true.

Lemma targetFileOf_resolved (file : string) (files : list string) (m : ModuleResult.t) :
  exists p, targetFileOf resolve (map resolve (file :: files)) m = resolve p.
Proof.
  unfold targetFileOf, moduleFileOf.
  destruct (ModuleResult.filepath m) as [fp|]; [|by exists file].
  destruct (nonEmpty fp); [by exists fp | by exists file].
Qed.

(** Where the call returns, every result is filed under a resolved path:
    that of its module or that of the first requested file.  The results
    of a failed call keep the paths as the caller wrote them. *)
Lemma returned_files_resolved (engine : Engine) (files : list string) (env : Env)
    (modules : list ModuleResult.t) (unhandled : option (list Unknown)) :
  files <> [] ->
  load engine = Loaded ->
  outcome (engineRun resolve relative cwd engine files env) = Returns modules unhandled ->
  Forall (fun r => exists p, TestRunResult.file r = resolve p)
    (RunnerSummary.results (fst (runTests resolve relative cwd engine files env))).
Proof.
  intros Hfiles Hload Hout. unfold runTests.
  destruct files as [|file files]; [done|]. simpl Nat.eqb. cbv iota zeta.
  unfold runVitest. rewrite Hload. cbv zeta.
  fold (engineRun resolve relative cwd engine (file :: files) env). rewrite Hout.
  cbn [fst]. rewrite buildSummaryFromVitest_spec by done. cbv zeta.
  assert (Hres : Forall (fun r => exists p, TestRunResult.file r = resolve p)
            (flattened resolve (map resolve (file :: files)) (default [] (Some modules))
             ++ map (unhandledResult (map resolve (file :: files)))
                  (default [] (Some (default [] unhandled))))).
  { apply Forall_app. split.
    - apply Forall_flat_map. intros m. unfold moduleOutcomes.
      destruct (ModuleResult.tasks m) as [tasks|]; [|constructor].
      apply Forall_forall. intros r (t & <- & _)%list_elem_of_In%in_map_iff.
      rewrite outcomeOf_file.
      destruct (targetFileOf_resolved file files m) as [p ->].
      exists p. unfold orElse. by rewrite resolve_nonEmpty.
    - apply Forall_forall. intros r (e & <- & _)%list_elem_of_In%in_map_iff.
      by exists file. }
  by destruct (0 <? _)%Z.
Qed.

End ResolvedFiles.

(** ** Scenarios *)

(** Scenario D: two errors with the same message, one of them padded. *)
Example duplicate_messages_reconciled :
  formatTaskErrors
    (Some [Some (VitestTaskError.mk (Some "expected 1 to be 2") None None);
           None;
           Some (VitestTaskError.mk (Some " expected 1 to be 2 ") None
                   (Some [Some (VitestStack.mk None (Some "at a.test.ts:3"))]))])
  = Some ("expected 1 to be 2" +:+ blankLine +:+ "at a.test.ts:3").
Proof. reflexivity. Qed.

(** Errors that carry nothing but blanks reconcile to null. *)
Example blank_errors_reconciled :
  formatTaskErrors (Some [Some (VitestTaskError.mk (Some "  ") (Some "") (Some [None])); None])
  = None.
Proof. reflexivity. Qed.

(** Scenario E: one unhandled error next to two passing tests. *)
Example unhandled_error_next_to_passing_tests :
  let s := fst (runTests sampleResolve sampleRelative sampleCwd
                  (returningEngine [sampleModule] [UString "late rejection"])
                  ["a.test.ts"] ∅) in
  (RunnerSummary.passed s, RunnerSummary.failed s, RunnerSummary.total s) = (2, 1, 3)
  /\ RunnerSummary.results s !! 2%nat
     = Some (TestRunResult.mk "[unhandled]" "/w/a.test.ts" false (Some "late rejection") 0%Z).
Proof. split; reflexivity. Qed.

(** An empty file list gives the empty summary and leaves the engine and
    the environment alone. *)
Example empty_file_list (engine : Engine) (env : Env) :
  runTests sampleResolve sampleRelative sampleCwd engine [] env
  = (RunnerSummary.mk 0 0 0 0%Z [], env).
Proof. reflexivity. Qed.

(** * Further properties of the code *)

(** ** The reconciled message *)

Lemma formatTaskErrors_reconcile (errors : option (list (option VitestTaskError.t))) :
  formatTaskErrors errors = reconcile errors.
Proof.
  unfold reconcile. destruct errors as [[|e errors]|]; [done| |done].
  unfold formatTaskErrors. rewrite fold_pushError, app_nil_l.
  change (flat_map errorCandidates (omap id (e :: errors)))
    with (candidates (Some (e :: errors))).
  rewrite uniqueMessages_stableDedup by apply candidates_nonEmpty.
  by destruct (stableDedup _).
Qed.

Lemma trimmedNonBlank_solid (v : option string) : Forall solid (trimmedNonBlank v).
Proof.
  destruct v as [s|]; simpl; [|constructor].
  destruct (nonBlank s) eqn:Hs; repeat constructor; by apply trim_solid.
Qed.

Lemma candidates_solid (errors : option (list (option VitestTaskError.t))) :
  Forall solid (candidates errors).
Proof.
  apply Forall_flat_map. intros e. unfold errorCandidates.
  apply Forall_app. split; [apply trimmedNonBlank_solid|].
  destruct (VitestTaskError.stacks e); [|apply trimmedNonBlank_solid].
  apply Forall_flat_map. intros s. unfold stackCandidates.
  pose proof (trimmedNonBlank_solid (VitestStack.message s)) as Hm.
  destruct (trimmedNonBlank (VitestStack.message s)); [|exact Hm].
  apply trimmedNonBlank_solid.
Qed.

Lemma join_solid (sep : string) (l : list string) :
  l <> [] -> Forall solid l -> solid (join sep l).
Proof.
  induction l as [|x [|y l] IH]; intros Hne Hall; [done| |].
  - by apply Forall_cons in Hall as [Hx _].
  - apply Forall_cons in Hall as [[Hxs Hxe] Hall]. rewrite join_cons.
    destruct (IH ltac:(done) Hall) as [_ Hend].
    split; [by apply startsSolid_append | by repeat apply endsSolid_append].
Qed.

Lemma reconcile_unique (errors : option (list (option VitestTaskError.t))) (m : string) :
  formatTaskErrors errors = Some m ->
  stableDedup (candidates errors) <> []
  /\ m = join blankLine (stableDedup (candidates errors)).
Proof.
  rewrite formatTaskErrors_reconcile. unfold reconcile.
  destruct (stableDedup (candidates errors)) as [|x l]; [done|].
  by intros [= <-].
Qed.

Lemma formatTaskErrors_solid (errors : option (list (option VitestTaskError.t))) (m : string) :
  formatTaskErrors errors = Some m -> solid m.
Proof.
  intros [Hne ->]%reconcile_unique. apply join_solid; [done|].
  apply Forall_forall. intros c Hc. apply (proj1 (elem_of_stableDedup _ _)) in Hc.
  pose proof (candidates_solid errors) as Hall.
  rewrite Forall_forall in Hall. by apply Hall.
Qed.

(** X1.  A message [formatTaskErrors] returns is never empty and has no
    white space at either end: trimming it changes nothing. *)
Theorem X1_reconciled_message_is_trimmed
    (errors : option (list (option VitestTaskError.t))) (m : string) :
  formatTaskErrors errors = Some m ->
  nonEmpty m = true /\ trim m = m.
Proof.
  intros [Hstart [Hne Hend]]%formatTaskErrors_solid.
  split; [exact Hne|]. by apply trim_fixed.
Qed.

Lemma X1_witness :
  let m := "expected 1 to be 2" +:+ blankLine +:+ "at a.test.ts:3" in
  nonEmpty m = true /\ trim m = m.
Proof.
  apply (X1_reconciled_message_is_trimmed
           (Some [Some (VitestTaskError.mk (Some " expected 1 to be 2 ") None
                          (Some [Some (VitestStack.mk None (Some "at a.test.ts:3"))]))])).
  reflexivity.
Defined.

(** X2.  Nothing is lost: when [formatTaskErrors] returns a message, every
    candidate string of the errors (each trimmed non-blank message or
    stack text) occurs in it; and when there is any candidate it does
    return a message. *)
Theorem X2_reconciled_message_holds_every_candidate
    (errors : option (list (option VitestTaskError.t))) (c : string) :
  c ∈ candidates errors ->
  exists m, formatTaskErrors errors = Some m /\ contains c m.
Proof.
  intros Hc. rewrite formatTaskErrors_reconcile. unfold reconcile.
  apply (proj2 (elem_of_stableDedup _ _)) in Hc.
  destruct (stableDedup (candidates errors)) as [|x l] eqn:Hd;
    [by apply elem_of_nil in Hc|].
  eexists. split; [reflexivity|]. by apply contains_join.
Qed.

Lemma X2_witness :
  exists m,
    formatTaskErrors
      (Some [Some (VitestTaskError.mk (Some "first") (Some "ignored") (Some []));
             Some (VitestTaskError.mk None (Some " at b.test.ts:9 ") None)])
    = Some m
    /\ contains "at b.test.ts:9" m.
Proof.
  apply X2_reconciled_message_holds_every_candidate.
  right. left.
Defined.

Lemma stableDedup_app (l1 l2 : list string) :
  stableDedup (l1 ++ l2)
  = stableDedup l1 ++ filter (fun y => y ∉ l1) (stableDedup l2).
Proof.
  induction l1 as [|x l1 IH]; simpl.
  - induction (stableDedup l2) as [|y d IHd]; [done|].
    rewrite filter_cons_True by apply not_elem_of_nil. by rewrite <- IHd.
  - f_equal. rewrite IH, filter_app. f_equal.
    rewrite list_filter_filter. apply list_filter_iff. intros y.
    rewrite not_elem_of_cons. tauto.
Qed.

Lemma candidates_app (es1 es2 : list (option VitestTaskError.t)) :
  candidates (Some (es1 ++ es2)) = candidates (Some es1) ++ candidates (Some es2).
Proof.
  unfold candidates. change (default [] (Some (es1 ++ es2))) with (es1 ++ es2).
  change (default [] (Some es1)) with es1. change (default [] (Some es2)) with es2.
  by rewrite omap_app, flat_map_app.
Qed.

(** X3.  Errors that only repeat candidate strings already collected add
    nothing: appending them leaves the message as it is.  In particular
    reporting the same errors twice gives the same message as once. *)
Theorem X3_repeated_errors_add_nothing (es1 es2 : list (option VitestTaskError.t)) :
  (forall c, c ∈ candidates (Some es2) -> c ∈ candidates (Some es1)) ->
  formatTaskErrors (Some (es1 ++ es2)) = formatTaskErrors (Some es1).
Proof.
  intros Hsub. rewrite !formatTaskErrors_reconcile. unfold reconcile.
  rewrite candidates_app, stableDedup_app.
  assert (filter (fun y => y ∉ candidates (Some es1)) (stableDedup (candidates (Some es2)))
          = []) as ->; [|by rewrite app_nil_r].
  assert (Hall : forall d, d ∈ stableDedup (candidates (Some es2))
                           -> d ∈ candidates (Some es1))
    by (intros d Hd; apply (proj1 (elem_of_stableDedup _ _)) in Hd; by apply Hsub).
  induction (stableDedup (candidates (Some es2))) as [|d ds IH]; [done|].
  rewrite filter_cons_False by (intros Hd; apply Hd, Hall; left).
  apply IH. intros d' Hd'. apply Hall. by right.
Qed.

Lemma X3_witness :
  let es := [Some (VitestTaskError.mk (Some "boom") (Some "at a:1") None)] in
  formatTaskErrors (Some (es ++ es)) = formatTaskErrors (Some es).
Proof.
  intros es. apply X3_repeated_errors_add_nothing. intros c Hc. exact Hc.
Defined.

(** ** The flattened outcomes *)



Lemma testResult_failure_message (filePath : string) (name mode : option string)
    (result : option TaskResult.t) :
  TestRunResult.passed (testResult filePath name mode result) = false ->
  exists m, TestRunResult.message (testResult filePath name mode result) = Some m
            /\ nonEmpty m = true /\ trim m = m.
Proof.
  unfold testResult.
  destruct (isLit (taskState mode result) "skip" || isLit (taskState mode result) "todo");
    [done|].
  cbn [TestRunResult.passed TestRunResult.message]. intros ->.
  destruct (formatTaskErrors (result ≫= TaskResult.errors)) as [m|] eqn:Hm.
  - exists m. split; [done|].
    apply formatTaskErrors_solid in Hm as [Hstart [Hne Hend]].
    split; [exact Hne | by apply trim_fixed].
  - eexists. split; [reflexivity|]. split; reflexivity.
Qed.

(** X5.  A test passes exactly when its state is ["pass"], ["skip"] or
    ["todo"]: any other state, and a missing one, is a failure.  Every
    failing outcome the flattener emits carries a message that is not
    empty and has no white space at its ends. *)
Theorem X5_failures_carry_a_message
    (tasks : list (option VitestTaskResult)) (filePath : string) :
  Forall (fun r => TestRunResult.passed r = false ->
                   exists m, TestRunResult.message r = Some m
                             /\ nonEmpty m = true /\ trim m = m)
    (collectTaskResults tasks filePath [])
  /\ (forall name mode result,
        TestRunResult.passed (testResult filePath name mode result) = true
        <-> taskState mode result = Some "pass"
            \/ taskState mode result = Some "skip"
            \/ taskState mode result = Some "todo").
Proof.
  split.
  - rewrite collectTaskResults_reached, app_nil_l.
    induction (reachedTestsOf tasks) as [|[type name mode ts result] l IH];
      constructor; [apply testResult_failure_message | exact IH].
  - intros name mode result. rewrite <- !isLit_true. unfold testResult.
    destruct (isLit (taskState mode result) "skip") eqn:Hskip; [simpl; tauto|].
    destruct (isLit (taskState mode result) "todo") eqn:Htodo; [simpl; tauto|].
    simpl. split; [tauto | by intros [?|[?|?]]].
Qed.

(** A failing test inside a suite, with a negative duration and a padded
    error message. *)
Example failing_test_in_suite :
  collectTaskResults failingSuite "" []
  = [TestRunResult.mk "adds" "[vitest]" false (Some "expected 1 to be 2") 0%Z].
Proof. reflexivity. Qed.

Lemma reachedTestsOf_app (ts1 ts2 : list (option VitestTaskResult)) :
  reachedTestsOf (ts1 ++ ts2) = reachedTestsOf ts1 ++ reachedTestsOf ts2.
Proof. apply flat_map_app. Qed.

(** X6.  A task that is not typed ["test"] stands for its children: putting
    the children in its place, anywhere in a task list, leaves the
    flattened outcomes as they are.  So suites and other containers, at
    any depth, change nothing but the grouping. *)
Theorem X6_containers_are_transparent
    (type name mode : option string) (children : list (option VitestTaskResult))
    (result : option TaskResult.t) (before after : list (option VitestTaskResult))
    (filePath : string) (accumulator : list TestRunResult.t) :
  type <> Some "test" ->
  collectTaskResults (before ++ container type name mode children result :: after)
    filePath accumulator
  = collectTaskResults (before ++ children ++ after) filePath accumulator.
Proof.
  intros Htype. rewrite !collectTaskResults_reached. do 2 f_equal.
  rewrite !reachedTestsOf_app. f_equal.
  change (container type name mode children result :: after)
    with ([container type name mode children result] ++ after).
  rewrite reachedTestsOf_app. f_equal.
  unfold reachedTestsOf, container. simpl.
  destruct (isLit type "test") eqn:Htest; [by apply isLit_true in Htest|].
  by rewrite app_nil_r.
Qed.

Lemma X6_witness :
  collectTaskResults
    [passingTest "first" 1;
     container None None None [passingTest "second" 2; None] None;
     passingTest "third" 3] "/w/a.test.ts" []
  = collectTaskResults
      [passingTest "first" 1; passingTest "second" 2; None; passingTest "third" 3]
      "/w/a.test.ts" [].
Proof.
  apply (X6_containers_are_transparent None None None [passingTest "second" 2; None] None
           [passingTest "first" 1] [passingTest "third" 3]).
  discriminate.
Defined.

(** ** Unhandled errors and failure summaries *)

(** X7.  For an [Error], [formatUnhandledError] never returns the empty
    string: it is the stack as it stands when the stack is not blank,
    otherwise the message when that is not empty, otherwise
    ["Unhandled error"]. *)
Theorem X7_unhandled_error_text_never_empty (stack : option string) (message : string) :
  nonEmpty (formatUnhandledError (UError stack message)) = true
  /\ formatUnhandledError (UError stack message)
     = if nonBlankField stack then text stack
       else if nonEmpty message then message else "Unhandled error".
Proof.
  assert (Hblank : forall s, nonBlank s = true -> nonEmpty s = true).
  { intros s Hs. destruct s; [done | done]. }
  unfold formatUnhandledError, orElse. destruct stack as [s|]; simpl.
  - destruct (nonBlank s) eqn:Hs.
    + rewrite (Hblank s Hs). simpl. split; [by apply Hblank | done].
    + rewrite andb_false_r. by destruct (nonEmpty message) eqn:Hm.
  - by destruct (nonEmpty message) eqn:Hm.
Qed.

(** X8.  A failure summary is never empty: it has one result per file, or
    one result for an empty file list, all of them failing with the same
    trimmed message; and the message is normalised once and for all,
    trimming it beforehand changes nothing. *)
Theorem X8_failure_summary_shape (files : list string) (message : string) :
  let s := createFailureSummary files message in
  length (RunnerSummary.results s) = Nat.max 1 (length files)
  /\ RunnerSummary.passed s = 0
  /\ RunnerSummary.failed s = Nat.max 1 (length files)
  /\ Forall (fun r => TestRunResult.passed r = false
                      /\ TestRunResult.message r = Some (trim message))
       (RunnerSummary.results s)
  /\ createFailureSummary files (trim message) = s.
Proof.
  destruct files as [|file files].
  - cbv zeta. rewrite !createFailureSummary_nil, trim_idem.
    repeat split; repeat constructor.
  - cbv zeta. rewrite !createFailureSummary_files, trim_idem by done.
    cbn [RunnerSummary.results RunnerSummary.passed RunnerSummary.failed].
    rewrite length_map. repeat split.
    apply Forall_forall. intros r (f & <- & _)%list_elem_of_In%in_map_iff. done.
Qed.

(** ** Thrown calls, scope and durations *)

Lemma sampleResolve_idempotent (p : string) : sampleResolve (sampleResolve p) = sampleResolve p.
Proof.
  unfold sampleResolve. destruct (startsWith "/" p) eqn:Hp; [by rewrite Hp | done].
Qed.

Lemma Forall_flat_map_elem {A B} (P : B -> Prop) (f : A -> list B) (l : list A) :
  (forall x, x ∈ l -> Forall P (f x)) -> Forall P (flat_map f l).
Proof.
  intros Hf. induction l as [|x l IH]; simpl; [constructor|].
  apply Forall_app. split; [apply Hf; left | apply IH; intros y Hy; apply Hf; by right].
Qed.

Section ReturnedCalls.

Variable resolve : string -> string.
Variable relative : string -> string -> string.
Variable cwd : string.

(** X9.  When the engine call throws, every result carries exactly the
    text [formatFailureMessage] builds from the reason and the captured
    streams: it has no white space at its ends, so storing it trims
    nothing away, and with both streams blank it is the trimmed reason
    alone. *)
Theorem X9_thrown_call_message
    (engine : Engine) (files : list string) (env : Env) (error : Thrown) :
  files <> [] ->
  load engine = Loaded ->
  outcome (engineRun resolve relative cwd engine files env) = Throws error ->
  let run := engineRun resolve relative cwd engine files env in
  let message := formatFailureMessage (executionReason error) (stdout run) (stderr run) in
  RunnerSummary.results (fst (runTests resolve relative cwd engine files env))
    = map (fun file => TestRunResult.mk "[vitest provider]" file false (Some message) 0%Z)
        files
  /\ trim message = message
  /\ (nonBlank (stdout run) = false -> nonBlank (stderr run) = false ->
      message = trim (executionReason error)).
Proof.
  intros Hfiles Hload Hout run message.
  assert (Htrim : trim message = message)
    by apply formatFailureMessage_trimmed, startsSolid_nonBlank, executionReason_solid.
  split; [|split; [exact Htrim|]].
  - unfold runTests. destruct files as [|file files]; [done|]. simpl Nat.eqb. cbv iota.
    unfold runVitest. rewrite Hload. cbv zeta.
    fold (engineRun resolve relative cwd engine (file :: files) env). rewrite Hout.
    cbn [fst]. fold run. fold message.
    rewrite createFailureSummary_files by done. by rewrite Htrim.
  - intros Hso Hse. unfold message. rewrite formatFailureMessage_sections, Hso, Hse.
    reflexivity.
Qed.

Hypothesis resolve_nonEmpty : forall p, nonEmpty (resolve p) = true.
Hypothesis resolve_idempotent : forall p, resolve (resolve p) = resolve p.

Lemma kept_module_in_scope (file : string) (files : list string) (m : ModuleResult.t) :
  droppedModule resolve (map resolve (file :: files)) m = false ->
  targetFileOf resolve (map resolve (file :: files)) m ∈ map resolve (file :: files).
Proof.
  unfold droppedModule, targetFileOf, moduleFileOf, filePresent, truthy.
  destruct (ModuleResult.filepath m) as [fp|]; [|intros _; left].
  destruct (nonEmpty fp); [|intros _; left].
  change (text (Some fp)) with fp. intros [Hreq|Hmem]%andb_false_iff; [done|].
  apply negb_false_iff, bool_decide_eq_true in Hmem.
  rewrite map_map in Hmem.
  by rewrite (map_ext (fun p => resolve (resolve p)) resolve resolve_idempotent) in Hmem.
Qed.

(** X10.  Scope: when files are requested and the engine call returns,
    every result of the summary, test outcome or unhandled error, is filed
    under the resolved path of one of the requested files.  A module of
    another file contributes nothing, and a module without a file path is
    filed under the first requested file. *)
Theorem X10_results_stay_in_scope
    (engine : Engine) (files : list string) (env : Env)
    (modules : list ModuleResult.t) (unhandled : option (list Unknown)) :
  files <> [] ->
  load engine = Loaded ->
  outcome (engineRun resolve relative cwd engine files env) = Returns modules unhandled ->
  Forall (fun r => TestRunResult.file r ∈ map resolve files)
    (RunnerSummary.results (fst (runTests resolve relative cwd engine files env))).
Proof.
  intros Hfiles Hload Hout. unfold runTests.
  destruct files as [|file files]; [done|]. simpl Nat.eqb. cbv iota zeta.
  unfold runVitest. rewrite Hload. cbv zeta.
  fold (engineRun resolve relative cwd engine (file :: files) env). rewrite Hout.
  cbn [fst]. rewrite buildSummaryFromVitest_spec by done. cbv zeta.
  assert (Hres : Forall (fun r => TestRunResult.file r ∈ map resolve (file :: files))
            (flattened resolve (map resolve (file :: files)) (default [] (Some modules))
             ++ map (unhandledResult (map resolve (file :: files)))
                  (default [] (Some (default [] unhandled))))).
  { apply Forall_app. split.
    - apply Forall_flat_map_elem. intros m [Hkept _]%list_elem_of_filter.
      unfold moduleOutcomes.
      destruct (ModuleResult.tasks m) as [tasks|]; [|constructor].
      apply Forall_forall. intros r (t & <- & _)%list_elem_of_In%in_map_iff.
      rewrite outcomeOf_file.
      pose proof (kept_module_in_scope file files m Hkept) as Hin.
      unfold orElse.
      destruct (nonEmpty (targetFileOf resolve (map resolve (file :: files)) m)) eqn:Hne;
        [exact Hin|].
      destruct (targetFileOf_resolved resolve file files m) as [p Hp].
      by rewrite Hp, resolve_nonEmpty in Hne.
    - apply Forall_forall. intros r (e & <- & _)%list_elem_of_In%in_map_iff. left. }
  by destruct (0 <? _)%Z.
Qed.

End ReturnedCalls.

Lemma X9_witness :
  RunnerSummary.results
    (fst (runTests sampleResolve sampleRelative sampleCwd throwingEngine
            ["a.test.ts"; "b.test.ts"] ∅))
  = map (fun file =>
           TestRunResult.mk "[vitest provider]" file false
             (Some (formatFailureMessage "Vitest execution failed: boom "
                      " collected 1 file " "")) 0%Z)
      ["a.test.ts"; "b.test.ts"].
Proof.
  apply (X9_thrown_call_message sampleResolve sampleRelative sampleCwd throwingEngine
           ["a.test.ts"; "b.test.ts"] ∅ (ThrownError "boom ")); [done | reflexivity..].
Defined.

(** Two modules returned, one of them for a file that was not requested. *)
Lemma X10_witness :
  Forall (fun r => TestRunResult.file r ∈ map sampleResolve ["a.test.ts"])
    (RunnerSummary.results
       (fst (runTests sampleResolve sampleRelative sampleCwd
               (returningEngine [foreignModule; sampleModule; anonymousModule]
                  [UString "late rejection"])
               ["a.test.ts"] ∅))).
Proof.
  apply (X10_results_stay_in_scope sampleResolve sampleRelative sampleCwd
           sampleResolve_nonEmpty sampleResolve_idempotent
           (returningEngine [foreignModule; sampleModule; anonymousModule]
              [UString "late rejection"])
           ["a.test.ts"] ∅ [foreignModule; sampleModule; anonymousModule]
           (Some [UString "late rejection"])); [done | reflexivity..].
Defined.

Example foreign_module_left_out :
  map TestRunResult.name
    (RunnerSummary.results
       (fst (runTests sampleResolve sampleRelative sampleCwd
               (returningEngine [foreignModule; sampleModule; anonymousModule]
                  [UString "late rejection"])
               ["a.test.ts"] ∅)))
  = ["one"; "two"; "[unhandled]"].
Proof. reflexivity. Qed.

Section Durations.

Variable resolve : string -> string.
Variable relative : string -> string -> string.
Variable cwd : string.

Lemma moduleStep_accumulates (requestedSet : gset string) (requestedFiles : list string)
    (results : list TestRunResult.t) (moduleDuration : Z) (m : ModuleResult.t) :
  let step := moduleStep resolve requestedSet requestedFiles ([], 0%Z) m in
  moduleStep resolve requestedSet requestedFiles (results, moduleDuration) m
  = (results ++ fst step, (moduleDuration + snd step)%Z)
  /\ (0 <= snd step)%Z.
Proof.
  unfold moduleStep.
  destruct (moduleSkipped requestedSet (moduleFileOf resolve m)).
  - simpl. split; [|lia]. f_equal; [by rewrite app_nil_r | lia].
  - cbn [fst snd]. split.
    + f_equal.
      * destruct (ModuleResult.tasks m) as [tasks|]; [|by rewrite app_nil_r].
        rewrite !collectTaskResults_reached. by rewrite app_nil_l.
      * destruct (ModuleResult.result m ≫= ModuleResult.duration) as [d|]; [|lia].
        destruct (truthy (moduleFileOf resolve m)); lia.
    + destruct (ModuleResult.result m ≫= ModuleResult.duration) as [d|]; [|lia].
      destruct (truthy (moduleFileOf resolve m)); lia.
Qed.

Lemma moduleLoop_accumulates (requestedSet : gset string) (requestedFiles : list string)
    (modules : list ModuleResult.t) : forall results moduleDuration,
  let loop := fold_left (moduleStep resolve requestedSet requestedFiles) modules ([], 0%Z) in
  fold_left (moduleStep resolve requestedSet requestedFiles) modules (results, moduleDuration)
  = (results ++ fst loop, (moduleDuration + snd loop)%Z)
  /\ (0 <= snd loop)%Z.
Proof.
  induction modules as [|m modules IH]; intros results moduleDuration; cbn [fold_left].
  - simpl. split; [|lia]. f_equal; [by rewrite app_nil_r | lia].
  - destruct (moduleStep_accumulates requestedSet requestedFiles results moduleDuration m)
      as [Hstep Hnonneg].
    destruct (moduleStep resolve requestedSet requestedFiles ([], 0%Z) m) as [r1 d1] eqn:Hm.
    cbn [fst snd] in Hstep, Hnonneg. rewrite Hstep.
    destruct (IH (results ++ r1) (moduleDuration + d1)%Z) as [-> _].
    destruct (IH r1 d1) as [-> Hloop]. cbn [fst snd].
    split; [|lia]. f_equal; [by rewrite app_assoc | lia].
Qed.

Lemma buildSummaryFromVitest_duration_nonneg (modules : option (list ModuleResult.t))
    (unhandledErrors : option (list Unknown)) (requestedFiles : list string) :
  (0 <= RunnerSummary.durationMs
          (buildSummaryFromVitest resolve modules unhandledErrors requestedFiles))%Z.
Proof.
  unfold buildSummaryFromVitest.
  destruct (moduleLoop_accumulates (list_to_set (map resolve requestedFiles)) requestedFiles
              (default [] modules) [] 0%Z) as [_ Hloop].
  destruct (fold_left _ _ _) as [results moduleDuration]. cbn [snd] in Hloop.
  cbn [RunnerSummary.durationMs]. rewrite fold_left_durations.
  destruct (Z.ltb_spec 0 (0 + totalDuration
              (appendUnhandledErrors unhandledErrors requestedFiles results))); lia.
Qed.

(** X11.  No summary has a negative duration, provided the clock did not
    run backwards during the engine call: negative durations reported by
    tests and modules are floored at 0 before they are added up. *)
Theorem X11_duration_never_negative (engine : Engine) (files : list string) (env : Env) :
  (0 <= elapsed (engineRun resolve relative cwd engine files env))%Z ->
  (0 <= RunnerSummary.durationMs (fst (runTests resolve relative cwd engine files env)))%Z.
Proof.
  intros Helapsed. unfold runTests. destruct (length files =? 0)%nat; [done|].
  unfold runVitest. destruct (load engine); try done.
  cbv zeta. fold (engineRun resolve relative cwd engine files env).
  destruct (outcome _) as [error|getFiles getUnhandledErrors]; [done|]. cbn [fst].
  destruct (Z.ltb_spec 0 (RunnerSummary.durationMs
              (buildSummaryFromVitest resolve (Some getFiles)
                 (Some (default [] getUnhandledErrors)) (map resolve files))));
    [lia | exact Helapsed].
Qed.

(** X12.  The summary builder works module by module, in the engine's
    order: the results for a list of modules followed by another are the
    results for the first list followed by those for the second, and an
    absent module list counts as an empty one. *)
Theorem X12_modules_summarised_in_order
    (modules1 modules2 : list ModuleResult.t) (requestedFiles : list string) :
  RunnerSummary.results
    (buildSummaryFromVitest resolve (Some (modules1 ++ modules2)) None requestedFiles)
  = RunnerSummary.results
      (buildSummaryFromVitest resolve (Some modules1) None requestedFiles)
    ++ RunnerSummary.results
         (buildSummaryFromVitest resolve (Some modules2) None requestedFiles)
  /\ buildSummaryFromVitest resolve None None requestedFiles
     = buildSummaryFromVitest resolve (Some []) None requestedFiles.
Proof.
  split; [|reflexivity]. unfold buildSummaryFromVitest.
  cbn [default from_option id]. rewrite fold_left_app.
  destruct (fold_left _ modules1 _) as [r1 d1].
  destruct (moduleLoop_accumulates (list_to_set (map resolve requestedFiles)) requestedFiles
              modules2 r1 d1) as [-> _].
  destruct (fold_left _ modules2 _) as [r2 d2]. reflexivity.
Qed.

End Durations.

Lemma X11_witness :
  (0 <= RunnerSummary.durationMs
          (fst (runTests sampleResolve sampleRelative sampleCwd
                  (returningEngine [anonymousModule] []) ["a.test.ts"] ∅)))%Z.
Proof.
  apply X11_duration_never_negative. by vm_compute.
Defined.

(** ** The environment on every path *)

(** X13.  [runTests] hands the three markers back as it found them on
    every path; and where the engine is never called (an empty file list,
    an engine that is not installed, fails to load or lacks [startVitest])
    the whole environment is untouched. *)
Theorem X13_environment_frame
    (resolve : string -> string) (relative : string -> string -> string) (cwd : string)
    (engine : Engine) (files : list string) (env : Env) :
  let after := snd (runTests resolve relative cwd engine files env) in
  (forall k, k ∈ markers -> after !! k = env !! k)
  /\ (files = [] \/ load engine <> Loaded -> after = env).
Proof.
  intros after. unfold after, runTests.
  destruct files as [|file files]; [split; done|]. simpl Nat.eqb. cbv iota.
  destruct (load engine) eqn:Hload;
    try (unfold runVitest; rewrite Hload; split; [done | done]).
  split.
  - intros k Hk. rewrite runVitest_env by done. by rewrite decide_True.
  - by intros [?|?].
Qed.

(** X14.  Setting the markers is idempotent: a nested invocation, started
    while the markers are set, sets them to the values they already have. *)
Theorem X14_setMarkers_idempotent (env : Env) :
  setMarkers (setMarkers env) = setMarkers env.
Proof.
  apply map_eq. intros k. rewrite !setMarkers_lookup.
  destruct markers_distinct as (H12 & H13 & H23).
  repeat case_decide; try done; congruence.
Qed.

(** ** CLI filters *)

(** X15.  The filter for a file is the file itself or its path relative to
    the working directory, and the relative path is used only when it is
    not empty and does not start with [..]: so the filter of a non-empty
    path is never empty, and the filter of a path that does not climb out
    of a directory never does. *)
Theorem X15_filter_never_empty_never_climbs
    (relative : string -> string -> string) (cwd file : string) :
  let filter := normalizeCliFilter relative cwd file in
  (filter = file \/ filter = relative cwd file)
  /\ (nonEmpty file = true -> nonEmpty filter = true)
  /\ (startsWith ".." file = false -> startsWith ".." filter = false).
Proof.
  unfold normalizeCliFilter.
  destruct (nonEmpty (relative cwd file)) eqn:Hne; simpl; [|by split; [left|]].
  destruct (startsWith ".." (relative cwd file)) eqn:Hup; simpl; [by split; [left|]|].
  split; [by right | done].
Qed.

Example filter_of_file_under_cwd :
  normalizeCliFilter sampleRelative sampleCwd (sampleResolve "src/a.test.ts") = "src/a.test.ts"
  /\ normalizeCliFilter sampleRelative sampleCwd (sampleResolve "/tmp/b.test.ts")
     = "/tmp/b.test.ts".
Proof. split; reflexivity. Qed.

(** ** The console *)

Lemma trimEnd_rest (s : string) : exists ws, s = trimEnd s +:+ ws.
Proof.
  induction s as [|a s [ws IH]]; [by exists ""|].
  rewrite trimEnd_cons. destruct (nonEmpty (trimEnd s)) eqn:Hs.
  - exists ws. by rewrite append_cons, <- IH.
  - apply nonEmpty_false in Hs. rewrite Hs, append_nil in IH.
    destruct (isWhiteSpace a); [by exists (String a s)|].
    exists ws. by rewrite append_cons, append_nil, <- IH.
Qed.

Lemma contains_trim (s : string) : contains (trim s) s.
Proof.
  destruct (trimEnd_rest s) as [ws' Hs]. destruct (trimEnd_trim s) as [ws Ht].
  exists ws, ws'. by rewrite <- append_assoc, <- Ht.
Qed.

Lemma failure_results_not_logged (message : string) (files : list string) :
  existsb notProviderResult (map (failureResult message) files) = false.
Proof. induction files as [|file files IH]; [done|]. exact IH. Qed.

(** The console of a failed invocation, for the message handed to
    [createFailureSummary] and the text handed to [console.warn]. *)
Lemma failure_console (files : list string) (message text : string)
    (summary : RunnerSummary.t) :
  files <> [] ->
  summary = createFailureSummary files message ->
  contains message text ->
  ([Warn text]
   ++ (if (0 <? RunnerSummary.total summary)%nat
          && existsb notProviderResult (RunnerSummary.results summary)
       then [Info (RunnerSummary.total summary)]
       else [])
   = [Warn text])
  /\ exists m, contains m text
               /\ Forall (fun r => TestRunResult.message r = Some m)
                    (RunnerSummary.results summary).
Proof.
  intros Hfiles -> Htext. rewrite createFailureSummary_files by done.
  cbn [RunnerSummary.total RunnerSummary.results].
  rewrite failure_results_not_logged, andb_false_r. split; [done|].
  exists (trim message). split; [by eapply contains_trans; [apply contains_trim|]|].
  apply Forall_forall. intros r (f & <- & _)%list_elem_of_In%in_map_iff. done.
Qed.

Lemma runTests_total_length
    (resolve : string -> string) (relative : string -> string -> string) (cwd : string)
    (engine : Engine) (files : list string) (env : Env) :
  RunnerSummary.total (fst (runTests resolve relative cwd engine files env))
  = length (RunnerSummary.results (fst (runTests resolve relative cwd engine files env))).
Proof.
  unfold runTests. destruct (length files =? 0)%nat; [done|].
  unfold runVitest. destruct (load engine); try reflexivity.
  cbv zeta. destruct (outcome _) as [error|getFiles getUnhandledErrors]; [reflexivity|].
  cbn [fst]. unfold buildSummaryFromVitest.
  destruct (fold_left _ _ _) as [results moduleDuration].
  by destruct (0 <? _)%Z.
Qed.

Section Console.

Variable resolve : string -> string.
Variable relative : string -> string -> string.
Variable cwd : string.

(** X16.  A failed invocation writes exactly one line to the console, a
    warning, and never the ["executed suite"] line; the message that every
    result of the summary carries occurs in the warning. *)
Theorem X16_failure_warns_once
    (engine : Engine) (files : list string) (env : Env) (f : Failure) :
  files <> [] ->
  engineFailure engine (engineRun resolve relative cwd engine files env) = Some f ->
  exists text m,
    runTestsConsole resolve relative cwd engine files env = [Warn text]
    /\ contains m text
    /\ Forall (fun r => TestRunResult.message r = Some m)
         (RunnerSummary.results (fst (runTests resolve relative cwd engine files env))).
Proof.
  intros Hfiles Hfail. unfold runTestsConsole, runTests.
  destruct files as [|file files]; [done|]. simpl Nat.eqb. cbv iota zeta.
  unfold engineFailure in Hfail. unfold runVitestConsole, runVitest.
  destruct (load engine) as [|error| |].
  - destruct (failure_console (file :: files) notInstalledMessage notInstalledMessage _
                Hfiles eq_refl (contains_refl _)) as [Hlog (m & Hm & Hall)].
    eexists _, m. split; [exact Hlog | by split].
  - destruct (failure_console (file :: files) (loadFailurePrefix +:+ thrownReason error)
                (loadFailurePrefix +:+ thrownReason error) _
                Hfiles eq_refl (contains_refl _)) as [Hlog (m & Hm & Hall)].
    eexists _, m. split; [exact Hlog | by split].
  - destruct (failure_console (file :: files) noExportMessage noExportMessage _
                Hfiles eq_refl (contains_refl _)) as [Hlog (m & Hm & Hall)].
    eexists _, m. split; [exact Hlog | by split].
  - cbv zeta. fold (engineRun resolve relative cwd engine (file :: files) env) in *.
    destruct (outcome _) as [error|getFiles getUnhandledErrors]; [|discriminate].
    cbn [fst].
    destruct (failure_console (file :: files)
                (formatFailureMessage (executionReason error)
                   (stdout (engineRun resolve relative cwd engine (file :: files) env))
                   (stderr (engineRun resolve relative cwd engine (file :: files) env)))
                ("[webstir-io/vitest-testing] "
                 +:+ formatFailureMessage (executionReason error)
                       (stdout (engineRun resolve relative cwd engine (file :: files) env))
                       (stderr (engineRun resolve relative cwd engine (file :: files) env)))
                _ Hfiles eq_refl (contains_append_l _ _ _ (contains_refl _)))
      as [Hlog (m & Hm & Hall)].
    eexists _, m. split; [exact Hlog | by split].
Qed.

(** X17.  An invocation whose engine call returns never warns; it writes
    the ["executed suite"] line, with the number of results, exactly when
    some result has a name other than ["[vitest provider]"], and nothing
    when there are no results.  An empty file list writes nothing. *)
Theorem X17_returned_call_console
    (engine : Engine) (files : list string) (env : Env)
    (modules : list ModuleResult.t) (unhandled : option (list Unknown)) :
  files <> [] ->
  load engine = Loaded ->
  outcome (engineRun resolve relative cwd engine files env) = Returns modules unhandled ->
  let results :=
    RunnerSummary.results (fst (runTests resolve relative cwd engine files env)) in
  runTestsConsole resolve relative cwd engine files env
  = (if existsb notProviderResult results then [Info (length results)] else [])
  /\ runTestsConsole resolve relative cwd engine [] env = [].
Proof.
  intros Hfiles Hload Hout results. split; [|reflexivity].
  pose proof (runTests_total_length resolve relative cwd engine files env) as Htotal.
  fold results in Htotal.
  unfold results, runTestsConsole, runTests in *.
  destruct files as [|file files]; [done|]. simpl Nat.eqb in *. cbv iota zeta in *.
  unfold runVitestConsole. rewrite Hload. cbv zeta.
  fold (engineRun resolve relative cwd engine (file :: files) env). rewrite Hout.
  rewrite app_nil_l, Htotal.
  destruct (RunnerSummary.results _) as [|r rs]; [done|]. reflexivity.
Qed.

End Console.

(** The engine is not installed: one warning, which is the message of the
    result. *)
Lemma X16_witness :
  exists text m,
    runTestsConsole sampleResolve sampleRelative sampleCwd missingEngine ["a.test.ts"] ∅
    = [Warn text]
    /\ contains m text
    /\ Forall (fun r => TestRunResult.message r = Some m)
         (RunnerSummary.results
            (fst (runTests sampleResolve sampleRelative sampleCwd missingEngine
                    ["a.test.ts"] ∅))).
Proof.
  apply (X16_failure_warns_once sampleResolve sampleRelative sampleCwd missingEngine
           ["a.test.ts"] ∅ (mkFailure "Vitest runtime not installed." "" ""));
    [done | reflexivity].
Defined.

(** Two passing tests: the line reports two results. *)
Lemma X17_witness :
  runTestsConsole sampleResolve sampleRelative sampleCwd
    (returningEngine [sampleModule] []) ["a.test.ts"] ∅
  = [Info 2].
Proof.
  apply (X17_returned_call_console sampleResolve sampleRelative sampleCwd
           (returningEngine [sampleModule] []) ["a.test.ts"] ∅ [sampleModule] (Some []));
    [done | reflexivity..].
Defined.

(** A thrown call warns with the package tag in front of the message. *)
Example thrown_call_console :
  runTestsConsole sampleResolve sampleRelative sampleCwd throwingEngine ["a.test.ts"] ∅
  = [Warn ("[webstir-io/vitest-testing] Vitest execution failed: boom" +:+ blankLine
           +:+ "[stdout]" +:+ LF +:+ "collected 1 file")].
Proof. reflexivity. Qed.

(** ** A run without tests *)

(** X18.  When the engine call returns no module and no unhandled error,
    the invocation is not a failure: the summary has no results, all
    counts 0 and the wall-clock time of the call as its duration, and
    nothing is written to the console. *)
Theorem X18_run_without_tests
    (resolve : string -> string) (relative : string -> string -> string) (cwd : string)
    (engine : Engine) (files : list string) (env : Env) (unhandled : option (list Unknown)) :
  files <> [] ->
  load engine = Loaded ->
  outcome (engineRun resolve relative cwd engine files env) = Returns [] unhandled ->
  default [] unhandled = [] ->
  fst (runTests resolve relative cwd engine files env)
  = RunnerSummary.mk 0 0 0 (elapsed (engineRun resolve relative cwd engine files env)) []
  /\ runTestsConsole resolve relative cwd engine files env = [].
Proof.
  intros Hfiles Hload Hout Hnone.
  assert (Hs : fst (runTests resolve relative cwd engine files env)
               = RunnerSummary.mk 0 0 0
                   (elapsed (engineRun resolve relative cwd engine files env)) []).
  { unfold runTests. destruct files as [|file files]; [done|]. simpl Nat.eqb. cbv iota.
    unfold runVitest. rewrite Hload. cbv zeta.
    fold (engineRun resolve relative cwd engine (file :: files) env).
    rewrite Hout, Hnone. reflexivity. }
  split; [exact Hs|].
  unfold runTestsConsole. unfold runTests in Hs.
  destruct files as [|file files]; [done|]. simpl Nat.eqb in *. cbv iota zeta in *.
  rewrite Hs. unfold runVitestConsole. rewrite Hload. cbv zeta.
  fold (engineRun resolve relative cwd engine (file :: files) env). by rewrite Hout.
Qed.

Lemma X18_witness :
  fst (runTests sampleResolve sampleRelative sampleCwd (returningEngine [] [])
         ["a.test.ts"] ∅)
  = RunnerSummary.mk 0 0 0 200%Z [].
Proof.
  apply (X18_run_without_tests sampleResolve sampleRelative sampleCwd (returningEngine [] [])
           ["a.test.ts"] ∅ (Some [])); [done | reflexivity..].
Defined.

(** ** Instances *)

(** The failing test of [failingSuite] carries its trimmed error message. *)
Lemma X5_witness :
  Forall (fun r => TestRunResult.passed r = false ->
                   exists m, TestRunResult.message r = Some m
                             /\ nonEmpty m = true /\ trim m = m)
    (collectTaskResults failingSuite "/w/a.test.ts" []).
Proof. apply (proj1 (X5_failures_carry_a_message failingSuite "/w/a.test.ts")). Defined.

(** A thrown call with the provider-kind marker set beforehand. *)
Lemma X13_witness :
  let env : Env := {[ WEBSTIR_TEST_PROVIDER := "jest" ]} in
  snd (runTests sampleResolve sampleRelative sampleCwd throwingEngine ["a.test.ts"] env)
    !! WEBSTIR_TEST_PROVIDER
  = Some "jest".
Proof.
  intros env.
  rewrite (proj1 (X13_environment_frame sampleResolve sampleRelative sampleCwd
                    throwingEngine ["a.test.ts"] env) WEBSTIR_TEST_PROVIDER);
    [reflexivity | left].
Defined.

(** A file outside the working directory keeps its absolute path. *)
Lemma X15_witness :
  nonEmpty (normalizeCliFilter sampleRelative sampleCwd "/tmp/b.test.ts") = true
  /\ startsWith ".." (normalizeCliFilter sampleRelative sampleCwd "/tmp/b.test.ts") = false.
Proof.
  destruct (X15_filter_never_empty_never_climbs sampleRelative sampleCwd "/tmp/b.test.ts")
    as (_ & Hne & Hup).
  split; [apply Hne | apply Hup]; reflexivity.
Defined.
